(** * e_commerce_analysis: the scraping pipeline and the sentiment labels

    A shallow embedding of [data_scrape.py] (the functions [get_driver],
    [scrape_site] and [scrape_products]), of the scraping limits of
    [config.py] and of the class [SentimentAnalyzer] of
    [Sentiment_analyzer.py].

    Python statements become computations in a state-and-exception monad
    [Py].  The browser is an oracle ([World]) that answers every Selenium
    command; every command the program issues is recorded in a trace of
    [event]s together with the session it is sent through.  The oracle
    answers a command whatever the state of that session: whether the
    session is still open when a command is sent is read off the trace
    ([sessions_live]).  Selenium itself refuses a command sent through a
    session that was quit, so the browsers of the model are more than the
    real ones: what holds for every [World] holds for the real ones, and an
    example is a real run only in a browser that refuses these commands
    ([refuses_stale_lookups]).  Printing, sleeping, [driver.quit()] and
    [json.dump] are taken to be reliable; starting Chrome, opening the
    output file and every Selenium call may raise. *)

From Stdlib Require Import QArith Lqa Ascii String.
From stdpp Require Import base list strings gmap sorting.

Local Open Scope string_scope.
Local Open Scope list_scope.
Local Open Scope nat_scope.

(** ** Python values *)

(** A Python [float]: a finite value (kept exact, only comparisons are applied
    to it), an infinity or a NaN. *)
Inductive pyfloat : Type :=
| Fin (q : Q)
| PInf
| NInf
| NaN.

(** The built-in values the program handles: [None], a [bool], an [int], a
    [float], a [str], a [list], a [dict]. *)
#[warnings="-register-all"]
Inductive pyval : Type :=
| PyNone
| PyBool (b : bool)
| PyInt (z : Z)
| PyFloat (f : pyfloat)
| PyStr (s : string)
| PyList (items : list pyval)
| PyDict (entries : list (string * pyval)).

(** A [dict] with string keys, in insertion order (the order [json.dump]
    writes). *)
Definition dict : Type := list (string * pyval).

Fixpoint dict_get (d : dict) (k : string) : option pyval :=
  match d with
  | [] => None
  | (k', v) :: rest => if String.eqb k' k then Some v else dict_get rest k
  end.

(** [d[k] = v]: an existing key keeps its position, a new key goes last. *)
Fixpoint dict_set (d : dict) (k : string) (v : pyval) : dict :=
  match d with
  | [] => [(k, v)]
  | (k', v') :: rest =>
      if String.eqb k' k then (k', v) :: rest else (k', v') :: dict_set rest k v
  end.

Definition dict_keys (d : dict) : list string := d.*1.

(** [x >= y] and [x <= y] on floats: false as soon as a NaN is involved. *)
Definition float_ge (x y : pyfloat) : bool :=
  match x, y with
  | NaN, _ | _, NaN => false
  | PInf, _ => true
  | _, NInf => true
  | NInf, _ => false
  | _, PInf => false
  | Fin a, Fin b => Qle_bool b a
  end.

Definition float_le (x y : pyfloat) : bool := float_ge y x.

(** Truth value of a built-in value, as [not text] takes it; for these
    values the test cannot raise (for the objects whose test can, see
    [object] below). *)
Definition truthy (v : pyval) : bool :=
  match v with
  | PyNone => false
  | PyBool b => b
  | PyInt z => negb (Z.eqb z 0)
  | PyFloat (Fin q) => negb (Qeq_bool q 0)
  | PyFloat _ => true
  | PyStr s => negb (String.eqb s "")
  | PyList items => match items with [] => false | _ => true end
  | PyDict entries => match entries with [] => false | _ => true end
  end.

Definition is_str (v : pyval) : bool :=
  match v with PyStr _ => true | _ => false end.

(** ** Exceptions and the [Py] monad *)

Inductive exn : Type :=
| SessionNotCreatedException
| NoSuchDriverException
| WebDriverException
| InvalidArgumentException
| TimeoutException
| NoSuchElementException
| ElementNotInteractableException
| NameError (name : string)
| KeyError (key : string)
| ValueError
| TypeError
| FileNotFoundError.

Inductive res (A : Type) : Type :=
| Ok (a : A)
| Raise (e : exn).
Arguments Ok {A} a.
Arguments Raise {A} e.

(** A computation over a state [S] that returns or raises. *)
Definition Py (S A : Type) : Type := S → res A * S.

Section PyMonad.
Context {S : Type}.

Definition py_ret {A} (a : A) : Py S A := λ s, (Ok a, s).

Definition py_bind {A B} (f : A → Py S B) (m : Py S A) : Py S B :=
  λ s, match m s with
       | (Ok a, s') => f a s'
       | (Raise e, s') => (Raise e, s')
       end.

Definition raise {A} (e : exn) : Py S A := λ s, (Raise e, s).

Definition modify (f : S → S) : Py S unit := λ s, (Ok (), f s).

(** [try: body except Exception as e: handler(e)] (every exception of the
    model is an [Exception], so a bare [except:] is the same). *)
Definition try_except {A} (body : Py S A) (handler : exn → Py S A) : Py S A :=
  λ s, match body s with
       | (Ok a, s') => (Ok a, s')
       | (Raise e, s') => handler e s'
       end.

(** [try: body finally: cleanup]: the cleanup runs on both exits; an
    exception of the cleanup replaces the outcome of the body. *)
Definition try_finally {A} (body : Py S A) (cleanup : Py S unit) : Py S A :=
  λ s, match body s with
       | (r, s') =>
           match cleanup s' with
           | (Ok _, s'') => (r, s'')
           | (Raise e, s'') => (Raise e, s'')
           end
       end.

(** [for x in xs: v = body(x, v)]: a loop whose body updates the variables
    [v] it carries.  Every [continue] of the source is the last statement of
    its iteration, so it is the normal end of [body]. *)
Fixpoint for_in {X V} (xs : list X) (body : X → V → Py S V) (v : V) : Py S V :=
  match xs with
  | [] => py_ret v
  | x :: rest => py_bind (for_in rest body) (body x v)
  end.

End PyMonad.

#[global] Instance Py_ret {S} : MRet (Py S) := @py_ret S.
#[global] Instance Py_bind {S} : MBind (Py S) := @py_bind S.

Definition result {S A} (out : res A * S) : res A := out.1.
Definition final {S A} (out : res A * S) : S := out.2.

(** ** The browser *)

Module Selenium.

(** A browser session, in the order the program starts them. *)
Definition session : Type := nat.

(** An element handle keeps the session that located it and sends its
    commands through that session. *)
Record WebElement : Type := { parent : session; ident : nat }.

Inductive locator : Type :=
| CssSelector (sel : string)
| XPath (path : string).

Inductive keys : Type :=
| Text (s : string)
| RETURN.

Inductive driver_cmd : Type :=
| Get (url : pyval)
| Title
| UntilClickable (by_ : locator)
| UntilPresent (by_ : locator)
| UntilAllPresent (by_ : locator)
| FindElements (by_ : locator).

Inductive element_cmd : Type :=
| Click
| Clear
| SendKeys (k : keys)
| ChildText (by_ : locator)
| ChildAttribute (by_ : locator) (name : string)
| ChildElements (by_ : locator).

(** What one product's detail page does when it is visited. *)
Record Page : Type := {
  opens : bool;
  reviews_button : option nat;
  button_clicks : bool;
  reviews_heading : bool
}.

(** The answers of the browser.  Elements are named by numbers; an answer
    [None] (or [false]) is a command that raises.  The answers to the
    lookups below an element do not depend on the moment of the lookup: an
    answer [None] also stands for the refusal of a lookup that is sent
    through a session that was quit, so the browsers in which such a lookup
    is answered are more than Selenium allows (see [refuses_stale_lookups]).
    [start_error] is the exception [webdriver.Chrome] raises when the
    session cannot start ([SessionNotCreatedException] for a browser that
    does not come up, [NoSuchDriverException] for a missing driver, ...). *)
Record World : Type := {
  chrome_starts : session → bool;
  start_error : session → exn;
  site_title : option string;
  clickable : string → option nat;
  click_ok : nat → bool;
  search_box : option nat;
  accepts_keys : nat → bool;
  listing_appears : bool;
  listing : list nat;
  child_text : nat → locator → option string;
  child_attribute : nat → locator → string → option (option string);
  child_elements : nat → locator → option (list nat);
  page : nat → Page
}.

End Selenium.
Export Selenium.

(** ** The scraper ([data_scrape.py]) *)

(** The lines the program prints. *)
Inductive message : Type :=
| PageLoaded (title : string)
| Clicked (sel : string)
| CouldNotClick (sel : string) (e : exn)
| SearchBarFound
| Searching (term : string)
| FoundItems (n : nat)
| ScrapingFailed (e : exn)
| SkippedProduct (e : exn)
| FoundProducts (n : nat)
| Visiting (title : pyval)
| ClickedReviewsButton
| Extracted (n : nat)
| NoReviewSection
| FailedReviews (title : pyval) (e : exn)
| FinalList
| ShowProduct (p : dict)
| Saved (n : nat).

Inductive event : Type :=
| Start (d : session)
| Quit (d : session)
| Driver (d : session) (c : driver_cmd)
| Element (e : WebElement) (c : element_cmd)
| Sleep (seconds : nat)
| Print (m : message)
| Dump (path encoding : string) (indent : nat) (ensure_ascii : bool) (obj : pyval).

Record St : Type := { started : nat; trace : list event }.

Definition emit (ev : event) : Py St unit :=
  modify (λ s, {| started := started s; trace := trace s ++ [ev] |}).

Definition print (m : message) : Py St unit := emit (Print m).
Definition sleep (seconds : nat) : Py St unit := emit (Sleep seconds).

(** The answer to a command that may raise. *)
Definition answer {A} (o : option A) (e : exn) : Py St A :=
  match o with
  | Some a => mret a
  | None => raise e
  end.

Definition check (b : bool) (e : exn) : Py St unit :=
  if b then mret () else raise e.

Section Scraper.
Variable w : World.

(** What [open("data/products_raw.json", "w", encoding="utf-8")] does where
    the program runs: [None] when the file is opened, and otherwise the
    exception it raises ([FileNotFoundError] when there is no directory
    [data/]). *)
Variable open_error : option exn.

(** [get_driver], lines 12-23: starts a new Chrome session, or raises
    what [webdriver.Chrome] raises when the session cannot start. *)
Definition get_driver (headless : bool) : Py St session :=
  λ s, let d := started s in
       if chrome_starts w d
       then (Ok d, {| started := S d; trace := trace s ++ [Start d] |})
       else (Raise (start_error w d), s).

Definition quit (driver : session) : Py St unit := emit (Quit driver).

Definition handle (driver : session) (n : nat) : WebElement :=
  {| parent := driver; ident := n |}.

(** [wait.until(cond)]: the element found within 20 seconds, or a timeout. *)
Definition wait_until (driver : session) (cond : driver_cmd) (found : option nat)
  : Py St WebElement :=
  emit (Driver driver cond);;
  n ← answer found TimeoutException;
  mret (handle driver n).

(** [e.click()], which succeeds or not as the browser decides ([ok]). *)
Definition click (e : WebElement) (ok : bool) : Py St unit :=
  emit (Element e Click);;
  check ok ElementNotInteractableException.

Definition clear (e : WebElement) : Py St unit :=
  emit (Element e Clear);;
  check (accepts_keys w (ident e)) ElementNotInteractableException.

Definition send_keys (e : WebElement) (k : keys) : Py St unit :=
  emit (Element e (SendKeys k));;
  check (accepts_keys w (ident e)) ElementNotInteractableException.

(** [e.find_element(By.CSS_SELECTOR, sel).text]: the command is sent
    through the session of [e], and the browser answers it or not (no such
    element, or a session that does not answer any more). *)
Definition find_text (e : WebElement) (sel : string) : Py St pyval :=
  emit (Element e (ChildText (CssSelector sel)));;
  t ← answer (child_text w (ident e) (CssSelector sel)) NoSuchElementException;
  mret (PyStr t).

(** [e.find_element(By.CSS_SELECTOR, sel).get_attribute(name)]: the value of
    the attribute, or [None] when the element has no such attribute. *)
Definition find_attribute (e : WebElement) (sel name : string) : Py St pyval :=
  emit (Element e (ChildAttribute (CssSelector sel) name));;
  a ← answer (child_attribute w (ident e) (CssSelector sel) name)
             NoSuchElementException;
  mret (match a with Some v => PyStr v | None => PyNone end).

(** [e.find_elements(By.CSS_SELECTOR, sel)] *)
Definition find_elements_in (e : WebElement) (sel : string)
  : Py St (list WebElement) :=
  emit (Element e (ChildElements (CssSelector sel)));;
  ns ← answer (child_elements w (ident e) (CssSelector sel)) WebDriverException;
  mret (handle (parent e) <$> ns).

(** [d[k]] *)
Definition getitem (d : dict) (k : string) : Py St pyval :=
  answer (dict_get d k) (KeyError k).

(** One optional click of [scrape_site], lines 42-48: a selector that
    cannot be clicked is reported and passed over. *)
Definition click_one (driver : session) (sel : string) (_ : unit) : Py St unit :=
  try_except
    (element ← wait_until driver
                 (UntilClickable (CssSelector sel)) (clickable w sel);
     click element (click_ok w (ident element));;
     print (Clicked sel);;
     sleep 1)
    (λ e, print (CouldNotClick sel e)).

(** The optional clicks, lines 40-41 ([None] and the empty list both mean no
    click). *)
Definition click_optional (driver : session) (click_selectors : list string)
  : Py St unit :=
  for_in click_selectors (click_one driver) ().

(** [scrape_site], lines 25-69. *)
Definition scrape_site (url search_term : string) (click_selectors : list string)
    (item_selector : string) : Py St (list WebElement) :=
  driver ← get_driver true;
  try_finally
    (try_except
       (emit (Driver driver (Get (PyStr url)));;
        title ← answer (site_title w) WebDriverException;
        emit (Driver driver Title);;
        print (PageLoaded title);;
        click_optional driver click_selectors;;
        search_box ← wait_until driver
          (UntilPresent (CssSelector "textarea#autocomplete-search-bar"))
          (search_box w);
        print SearchBarFound;;
        clear search_box;;
        send_keys search_box (Text search_term);;
        send_keys search_box RETURN;;
        print (Searching search_term);;
        emit (Driver driver (UntilAllPresent (CssSelector item_selector)));;
        check (listing_appears w) TimeoutException;;
        emit (Driver driver (FindElements (CssSelector item_selector)));;
        let items := handle driver <$> listing w in
        print (FoundItems (length items));;
        mret items)
       (λ e, print (ScrapingFailed e);; mret []))
    (quit driver).

(** One iteration of the first loop of [scrape_products], lines 106-120:
    one guarded block for the item; the three fields are read in turn and
    the record is appended only when all three were read. *)
Definition parse_item (item : WebElement) (products : list dict)
  : Py St (list dict) :=
  try_except
    (sleep 5;;
     title ← find_text item "h2.product-title";
     price ← find_text item
               "div[data-testid='price-block-customer-price'] span";
     link ← find_attribute item "a.product-list-item-link" "href";
     sleep 5;;
     let products :=
       products ++ [[("title", title); ("price", price); ("link", link)]] in
     sleep 5;;
     mret products)
    (λ e, print (SkippedProduct e);; mret products).

(** The first loop, lines 104-105. *)
Definition parse_listing (items : list WebElement) : Py St (list dict) :=
  for_in items parse_item [].

(** The name [reviews_container] of line 142: nothing in the function or in
    the module assigns it (the assignment of line 139 is commented out), so
    evaluating it raises [NameError]. *)
Definition reviews_container : Py St WebElement :=
  raise (NameError "reviews_container").

(** One iteration of the review loop, lines 145-170: each of the four
    fields has a guarded block of its own. *)
Definition extract_review (review : WebElement) (reviews_data : list dict)
  : Py St (list dict) :=
  rating ← try_except (find_text review "span.sr-only")
                      (λ _, mret (PyStr "N/A"));
  title ← try_except (find_text review "h4.body-copy-lg")
                     (λ _, mret (PyStr "N/A"));
  content ← try_except (find_text review "p.body-copy-lg")
                       (λ _, mret (PyStr "N/A"));
  posted_by ← try_except (find_text review "p[data-testid='posted-by']")
                         (λ _, mret (PyStr "N/A"));
  mret (reviews_data ++ [[("rating", rating); ("title", title);
                          ("content", content); ("posted_by", posted_by)]]).

(** The review loop, lines 143-144. *)
Definition extract_reviews (review_items : list WebElement) : Py St (list dict) :=
  for_in review_items extract_review [].

(** [products[i][k] = v]: the dictionary is updated where it lives, in the
    list [products]. *)
Definition setitem (products : list dict) (i : nat) (k : string) (v : pyval)
  : list dict :=
  alter (λ p, dict_set p k v) i products.

(** One iteration of the second loop, lines 126-182, for the product at
    position [i]. *)
Definition visit (driver : session) (i : nat) (products : list dict)
  : Py St (list dict) :=
  match products !! i with
  | None => mret products
  | Some product =>
      try_except
        (title ← getitem product "title";
         print (Visiting title);;
         link ← getitem product "link";
         emit (Driver driver (Get link));;
         check (is_str link) InvalidArgumentException;;
         check (opens (page w i)) WebDriverException;;
         try_except
           (customer_reviews_btn ← wait_until driver
              (UntilClickable
                 (XPath "//button[.//span[text()='See All Customer Reviews']]"))
              (reviews_button (page w i));
            click customer_reviews_btn (button_clicks (page w i));;
            print ClickedReviewsButton;;
            emit (Driver driver
                    (UntilPresent
                       (CssSelector "h1.c-section-title.heading-5.v-fw-medium")));;
            check (reviews_heading (page w i)) TimeoutException;;
            container ← reviews_container;
            review_items ← find_elements_in container
                             "li.w-full.py-300.py-sm-200.border-light";
            reviews_data ← extract_reviews review_items;
            print (Extracted (length reviews_data));;
            mret products)
           (λ _,
              print NoReviewSection;;
              let products := setitem products i "rating" (PyStr "N/A") in
              let products := setitem products i "review_count" (PyStr "N/A") in
              mret products))
        (λ e,
           title ← getitem product "title";
           print (FailedReviews title e);;
           mret products)
  end.

(** The second loop, lines 125-182. *)
Definition visit_products (driver : session) (products : list dict)
  : Py St (list dict) :=
  for_in (seq 0 (length products)) (visit driver) products.

(** Lines 193-194: the file is opened, which can fail, and
    [json.dump(products, f, indent=2, ensure_ascii=False)] is given the
    products, for the file opened with [encoding="utf-8"]. *)
Definition save (products : list dict) : Py St unit :=
  match open_error with
  | Some e => raise e
  | None =>
      emit (Dump "data/products_raw.json" "utf-8" 2 false
                 (PyList (PyDict <$> products)))
  end.

(** [print(p)] of the loop of lines 186-187. *)
Definition show_product (p : dict) (_ : unit) : Py St unit :=
  print (ShowProduct p).

(** [scrape_products], lines 70-200. *)
Definition scrape_products : Py St (list dict) :=
  driver ← get_driver true;
  try_finally
    (items ← scrape_site "https://www.bestbuy.com/" "laptop" ["a.us-link"]
               "li.product-list-item";
     products ← parse_listing items;
     print (FoundProducts (length products));;
     products ← visit_products driver products;
     print FinalList;;
     for_in products show_product ();;
     save products;;
     print (Saved (length products));;
     mret products)
    (quit driver).

End Scraper.

(** A run from a fresh process. *)
Definition run_in (w : World) (open_error : option exn)
  : res (list dict) * St :=
  scrape_products w open_error {| started := 0; trace := [] |}.

(** A run where the output file can be opened. *)
Definition run (w : World) : res (list dict) * St := run_in w None.

(** ** Reading a trace *)

(** Every command of the trace goes through a session that has been started
    and not yet quit when the command is sent ([live] are the sessions open
    before the trace). *)
Fixpoint sessions_live (live : list session) (tr : list event) : bool :=
  match tr with
  | [] => true
  | Start d :: rest => sessions_live (d :: live) rest
  | Quit d :: rest => sessions_live (filter (λ d', d' ≠ d) live) rest
  | Driver d _ :: rest => bool_decide (d ∈ live) && sessions_live live rest
  | Element e _ :: rest =>
      bool_decide (parent e ∈ live) && sessions_live live rest
  | _ :: rest => sessions_live live rest
  end.

(** The sessions still open after the trace. *)
Fixpoint open_sessions (live : list session) (tr : list event) : list session :=
  match tr with
  | [] => live
  | Start d :: rest => open_sessions (d :: live) rest
  | Quit d :: rest => open_sessions (filter (λ d', d' ≠ d) live) rest
  | _ :: rest => open_sessions live rest
  end.

(** An event of a stage of the run: a command, a printed line or a pause.
    It starts no session, quits none and writes no file. *)
Definition stage_event (ev : event) : bool :=
  match ev with
  | Start _ | Quit _ | Dump _ _ _ _ _ => false
  | _ => true
  end.

(** The session each command of the trace is sent through, in order. *)
Definition session_of (ev : event) : option session :=
  match ev with
  | Driver d _ => Some d
  | Element e _ => Some (parent e)
  | _ => None
  end.

Definition sessions_used (tr : list event) : list session :=
  omap session_of tr.

(** The objects handed to [json.dump], in order. *)
Definition dumped (tr : list event) : list pyval :=
  omap (λ ev, match ev with Dump _ _ _ _ obj => Some obj | _ => None end) tr.

(** The listing items whose parsing was started: the first command of an
    iteration of the first loop reads the title. *)
Definition parse_started (tr : list event) : list WebElement :=
  omap (λ ev, match ev with
              | Element e (ChildText (CssSelector sel)) =>
                  if String.eqb sel "h2.product-title" then Some e else None
              | _ => None
              end) tr.

(** The products whose visit was announced, by title, in order. *)
Definition visits (tr : list event) : list pyval :=
  omap (λ ev, match ev with Print (Visiting t) => Some t | _ => None end) tr.

(** The commands sent through session [d]. *)
Definition driver_cmds (d : session) (tr : list event) : list driver_cmd :=
  omap (λ ev, match ev with
              | Driver d' c => if Nat.eqb d' d then Some c else None
              | _ => None
              end) tr.

(** ** The scraping limits ([config.py], lines 33-36) *)

Module Config.
Definition MAX_PAGES : nat := 5.
Definition MAX_PRODUCTS : nat := 50.
Definition MAX_PRODUCTS_DETAIL : nat := 20.
Definition MAX_REVIEWS_PER_PRODUCT : nat := 50.
End Config.

(** ** The sentiment analyzer ([Sentiment_analyzer.py]) *)

Module Sentiment.

(** A string is a sequence of bytes.  [lower], [\S] and [split] are
    modelled on the ASCII letters and the ASCII white space, as Python has
    them on a text that is ASCII; on other texts (bytes from 128 on)
    [str.lower], [\s] and [str.isalpha] know more letters and more white
    space than these definitions.  The properties that depend on it are
    stated for the texts with [is_ascii]. *)
Definition is_space (c : ascii) : bool :=
  let n := nat_of_ascii c in
  (Nat.leb 9 n && Nat.leb n 13) || (Nat.leb 28 n && Nat.leb n 32).

Definition lower_char (c : ascii) : ascii :=
  let n := nat_of_ascii c in
  if Nat.leb 65 n && Nat.leb n 90 then ascii_of_nat (n + 32) else c.

Fixpoint lower (s : string) : string :=
  match s with
  | EmptyString => EmptyString
  | String c rest => String (lower_char c) (lower rest)
  end.

(** The character after the prefix [p] of [s] exists and is not white
    space: [p\S+] matches at the start of [s]. *)
Fixpoint starts_with_then_nonspace (p s : string) : bool :=
  match p, s with
  | EmptyString, String c _ => negb (is_space c)
  | String a p', String c s' => Ascii.eqb a c && starts_with_then_nonspace p' s'
  | _, EmptyString => false
  end.

Definition url_starts (s : string) : bool :=
  starts_with_then_nonspace "http" s
  || starts_with_then_nonspace "www" s
  || starts_with_then_nonspace "https" s.

(** [re.sub(r'http\S+|www\S+|https\S+', '', text)]: a match starts with
    letters and [\S+] is greedy, so a match is the whole run of non-space
    characters from its first character; [inside] says that the scan is in
    such a run. *)
Fixpoint remove_urls (inside : bool) (s : string) : string :=
  match s with
  | EmptyString => EmptyString
  | String c rest =>
      if inside then
        if is_space c then String c (remove_urls false rest)
        else remove_urls true rest
      else if url_starts s then remove_urls true rest
      else String c (remove_urls false rest)
  end.

(** [text.split()]: the maximal runs of non-space characters; [word] is the
    run being read. *)
Fixpoint split (word s : string) : list string :=
  match s with
  | EmptyString => if String.eqb word "" then [] else [word]
  | String c rest =>
      if is_space c then
        if String.eqb word "" then split "" rest else word :: split "" rest
      else split (word ++ String c "")%string rest
  end.

(** [_preprocess_text], lines 90-109. *)
Definition _preprocess_text (text : string) : string :=
  let text := lower text in
  let text := remove_urls false text in
  String.concat " " (split "" text).

(** The dictionary [polarity_scores] returns. *)
Record Scores : Type := { neg : pyfloat; neu : pyfloat; pos : pyfloat; compound : pyfloat }.

Inductive log_record : Type :=
| Warning (text : string) (e : exn).

Section Analyzer.
(** [self.sia.polarity_scores], of NLTK: the scores of a text, or the
    exception it raises. *)
Variable polarity_scores : string → res Scores.

Definition warning (text : string) (e : exn) : Py (list log_record) unit :=
  modify (λ log, log ++ [Warning text e]).

(** [analyze_sentiment], lines 41-66. *)
Definition analyze_sentiment (text : pyval) : Py (list log_record) pyfloat :=
  if negb (truthy text) || negb (is_str text) then mret (Fin 0)
  else
    try_except
      (match text with
       | PyStr s =>
           let cleaned_text := _preprocess_text s in
           scores ← (λ log, (polarity_scores cleaned_text, log));
           mret (compound scores)
       | _ => raise ValueError
       end)
      (λ e, warning "Error analyzing sentiment" e;; mret (Fin 0)).

(** The dictionary of the fallback paths of [analyze_sentiment_detailed]. *)
Definition zero_scores : Scores :=
  {| neg := Fin 0; neu := Fin 0; pos := Fin 0; compound := Fin 0 |}.

(** [analyze_sentiment_detailed], lines 68-88. *)
Definition analyze_sentiment_detailed (text : pyval)
  : Py (list log_record) Scores :=
  if negb (truthy text) || negb (is_str text) then mret zero_scores
  else
    try_except
      (match text with
       | PyStr s =>
           let cleaned_text := _preprocess_text s in
           scores ← ((λ log, (polarity_scores cleaned_text, log))
                     : Py (list log_record) Scores);
           mret scores
       | _ => raise ValueError
       end)
      (λ e, warning "Error in detailed sentiment analysis" e;;
            mret zero_scores).



End Analyzer.

(** *** Arguments of any class

    The truth test of a built-in value returns.  A caller can also pass an
    instance of another class, whose truth test ([__bool__] or [__len__])
    can raise: [not a] raises [ValueError] for a NumPy array [a] of several
    elements, and [not pandas.NA] raises [TypeError].  [Instance truth] is
    an object that is not a string, with the outcome of its truth test. *)
Inductive object : Type :=
| Builtin (v : pyval)
| Instance (truth : res bool).

Section AnyArgument.
Variable polarity_scores : string → res Scores.

(** [analyze_sentiment] on any object.  The guard of line 51,
    [not text or not isinstance(text, str)], is outside the [try]: it takes
    the truth test first, which can raise, and is true of every object that
    is not a string. *)
Definition analyze_sentiment_object (text : object)
  : Py (list log_record) pyfloat :=
  match text with
  | Builtin v => analyze_sentiment polarity_scores v
  | Instance truth =>
      _ ← ((λ log, (truth, log)) : Py (list log_record) bool);
      mret (Fin 0)
  end.

(** [analyze_sentiment_detailed] on any object, with the same guard at
    line 78. *)
Definition analyze_sentiment_detailed_object (text : object)
  : Py (list log_record) Scores :=
  match text with
  | Builtin v => analyze_sentiment_detailed polarity_scores v
  | Instance truth =>
      _ ← ((λ log, (truth, log)) : Py (list log_record) bool);
      mret zero_scores
  end.

End AnyArgument.

(** [get_sentiment_label], lines 111-126.  The thresholds are the exact
    values 1/20 and -1/20: the float nearest to 0.05 is the least float that
    is at least 1/20, so on floats the comparisons agree. *)
Definition get_sentiment_label (score : pyfloat) : string :=
  if float_ge score (Fin (1 # 20)) then "Positive"
  else if float_le score (Fin (-1 # 20)) then "Negative"
  else "Neutral".

(** A scorer for examples: it fails on the empty text and finds every other
    text mildly positive. *)
Definition mild_scorer (text : string) : res Scores :=
  if String.eqb text "" then Raise ValueError
  else Ok {| neg := Fin 0; neu := Fin (1 # 2); pos := Fin (1 # 2);
             compound := Fin (1 # 2) |}.

(** A score between -1 and 1. *)
Definition in_unit_interval (score : pyfloat) : Prop :=
  match score with
  | Fin q => (-1 <= q <= 1)%Q
  | _ => False
  end.

(** Every character of [s] satisfies [P]. *)
Fixpoint all_chars (P : ascii → bool) (s : string) : bool :=
  match s with
  | EmptyString => true
  | String c rest => P c && all_chars P rest
  end.

(** [s.isascii()]: on such a text [lower], [is_space] and [isalpha] are
    [str.lower], the white space of [\s] and [str.split], and
    [str.isalpha]. *)
Definition is_ascii (s : string) : bool :=
  all_chars (λ c, Nat.ltb (nat_of_ascii c) 128) s.

(** The pattern of [_preprocess_text] matches nowhere in [s]. *)
Fixpoint no_url (s : string) : bool :=
  match s with
  | EmptyString => true
  | String _ rest => negb (url_starts s) && no_url rest
  end.

(** [s] is empty or starts with white space: a word that is followed by
    [s] ends there. *)
Definition blank_head (s : string) : bool :=
  match s with
  | EmptyString => true
  | String c _ => is_space c
  end.

(** A word as [split] returns them: not empty, without white space. *)
Definition is_word (word : string) : bool :=
  negb (String.eqb word "") && all_chars (λ c, negb (is_space c)) word.

(** The number of times [word] occurs in [words]. *)
Definition occurrences (word : string) (words : list string) : nat :=
  length (filter (λ x, x = word) words).

Definition is_upper (c : ascii) : bool :=
  let n := nat_of_ascii c in Nat.leb 65 n && Nat.leb n 90.

Definition is_alpha (c : ascii) : bool :=
  let n := nat_of_ascii c in
  (Nat.leb 65 n && Nat.leb n 90) || (Nat.leb 97 n && Nat.leb n 122).

(** [word.isalpha()]: at least one character, and letters only. *)
Definition isalpha (word : string) : bool :=
  negb (String.eqb word "") && all_chars is_alpha word.

(** [Counter(keywords)]: the words with their numbers of occurrences, in
    the order of their first occurrences. *)
Fixpoint count (word : string) (freq : list (string * nat))
  : list (string * nat) :=
  match freq with
  | [] => [(word, 1)]
  | (w, n) :: rest =>
      if String.eqb w word then (w, S n) :: rest
      else (w, n) :: count word rest
  end.

Definition Counter (words : list string) : list (string * nat) :=
  foldl (λ freq word, count word freq) [] words.

(** [x] put into a list sorted by decreasing count, before the entries that
    do not have a greater count: with [foldr] this is the stable sort
    [sorted(items, key=count, reverse=True)]. *)
Fixpoint insert_by_count (x : string * nat) (sorted : list (string * nat))
  : list (string * nat) :=
  match sorted with
  | [] => [x]
  | y :: rest =>
      if Nat.ltb x.2 y.2 then y :: insert_by_count x rest
      else x :: y :: rest
  end.

(** [word_freq.most_common(n)]: the [n] entries of greatest count, entries
    of equal count in the order of their first occurrences; nothing when
    [n] is not positive. *)
Definition most_common (n : Z) (freq : list (string * nat))
  : list (string * nat) :=
  take (Z.to_nat n) (foldr insert_by_count [] freq).

(** What [extract_keywords] logs: the object that has no method [lower]
    (the [AttributeError] of [text.lower()]). *)
Inductive keyword_log : Type :=
| KeywordWarning (text : pyval).

Section Keywords.
(** [self.stop_words] *)
Variable stop_words : gset string.

(** The condition of the list comprehension of lines 156-159. *)
Definition is_keyword (word : string) : bool :=
  negb (bool_decide (word ∈ stop_words))
  && Nat.ltb 3 (String.length word)
  && isalpha word.

(** [extract_keywords], lines 140-170.  Inside the guarded block only
    [text.lower()] can raise, when [text] is not a string; the handler logs
    a warning and returns the empty list. *)
Definition extract_keywords (text : pyval) (top_n : Z)
    (log : list keyword_log) : list string * list keyword_log :=
  match text with
  | PyStr s =>
      let words := split "" (lower s) in
      let keywords := filter (λ word, is_keyword word = true) words in
      let word_freq := Counter keywords in
      ((most_common top_n word_freq).*1, log)
  | _ => ([], log ++ [KeywordWarning text])
  end.

End Keywords.

(** ** The NLTK resources *)

(** What [nltk.data.find] does: it returns, raises [LookupError], or raises
    something else. *)
Inductive find_result : Type :=
| Found
| NotFound
| FindError (e : exn).

(** The NLTK installation: the answers of [nltk.data.find], of
    [nltk.download] ([Some e]: it raises [e]), of
    [SentimentIntensityAnalyzer()] and of [stopwords.words('english')]. *)
Record Nltk : Type := {
  data_find : string → find_result;
  download : string → option exn;
  sia_loads : option exn;
  stopwords_english : res (list string)
}.

Inductive nltk_call : Type :=
| Find (path : string)
| Download (resource : string).

Record InitSt : Type := { calls : list nltk_call; warnings : list log_record }.

Section Init.
Variable nltk : Nltk.

Definition call (c : nltk_call) : Py InitSt unit :=
  modify (λ s, {| calls := calls s ++ [c]; warnings := warnings s |}).

Definition warn (text : string) (e : exn) : Py InitSt unit :=
  modify (λ s, {| calls := calls s;
                  warnings := warnings s ++ [Warning text e] |}).

(** The path looked up for a resource, lines 32-34. *)
Definition resource_path (resource : string) : string :=
  if String.eqb resource "vader_lexicon" then ("sentiment/" ++ resource)%string
  else if String.eqb resource "stopwords" then ("corpora/" ++ resource)%string
  else ("tokenizers/" ++ resource)%string.

(** [except LookupError] (line 35) also catches the subclasses of
    [LookupError]; among the exceptions of the model that is [KeyError]. *)
Definition is_lookup_error (e : exn) : bool :=
  match e with KeyError _ => true | _ => false end.

(** Lines 36-39: the download, a failure of which is logged. *)
Definition fetch (resource : string) : Py InitSt unit :=
  try_except
    (call (Download resource);;
     match download nltk resource with
     | None => mret ()
     | Some e => raise e
     end)
    (λ e, warn ("Could not download " ++ resource) e).

(** One iteration of the loop of [_download_nltk_resources], lines 31-39:
    only a [LookupError] of the lookup leads to a download; any other
    exception of the lookup leaves the loop. *)
Definition ensure_resource (resource : string) (_ : unit) : Py InitSt unit :=
  call (Find (resource_path resource));;
  match data_find nltk (resource_path resource) with
  | Found => mret ()
  | NotFound => fetch resource
  | FindError e => if is_lookup_error e then fetch resource else raise e
  end.

Definition resources : list string := ["vader_lexicon"; "stopwords"; "punkt"].

(** [_download_nltk_resources], lines 26-39. *)
Definition _download_nltk_resources : Py InitSt unit :=
  for_in resources ensure_resource ().

(** [__init__], lines 16-24: the stop words the analyzer ends with. *)
Definition __init__ : Py InitSt (gset string) :=
  _download_nltk_resources;;
  match sia_loads nltk with
  | Some e => raise e
  | None =>
      try_except
        (match stopwords_english nltk with
         | Ok words => mret (list_to_set words)
         | Raise e => raise e
         end)
        (λ _, mret ∅)
  end.

(** *** What the loop does, resource by resource *)

(** The lookup of the resource fails with a [LookupError]. *)
Definition is_missing (resource : string) : bool :=
  match data_find nltk (resource_path resource) with
  | Found => false
  | NotFound => true
  | FindError e => is_lookup_error e
  end.

(** The lookup of the resource fails with another exception. *)
Definition lookup_breaks (resource : string) : option exn :=
  match data_find nltk (resource_path resource) with
  | FindError e => if is_lookup_error e then None else Some e
  | _ => None
  end.

Definition calls_for (resource : string) : list nltk_call :=
  Find (resource_path resource)
  :: (if is_missing resource then [Download resource] else []).

Definition warning_for (resource : string) : option log_record :=
  if is_missing resource
  then e ← download nltk resource;
       Some (Warning ("Could not download " ++ resource) e)
  else None.

End Init.

(** An installation with the lexicon in place, the stop words missing and
    not downloadable, and the tokenizer missing but downloadable. *)
Definition offline_install : Nltk :=
  {| data_find := λ path,
       if String.eqb path "sentiment/vader_lexicon" then Found else NotFound;
     download := λ resource,
       if String.eqb resource "stopwords" then Some ValueError else None;
     sia_loads := None;
     stopwords_english := Raise (KeyError "stopwords") |}.

(** An installation whose lookup of the stop words fails with an exception
    that is not a [LookupError]. *)
Definition broken_install : Nltk :=
  {| data_find := λ path,
       if String.eqb path "corpora/stopwords" then FindError ValueError
       else NotFound;
     download := λ _, None;
     sia_loads := None;
     stopwords_english := Ok ["the"; "with"] |}.

End Sentiment.

(** ** What a run computes, read off the answers of the browser

    The functions below are not taken from the source: they say in closed
    form what the embedded program returns, and are proved equal to it
    ([scrape_site_run], [parse_listing_run], [visit_products_run],
    [run_records]). *)

(** The search reaches the result list. *)
Definition search_succeeds (w : World) : bool :=
  bool_decide (is_Some (site_title w))
  && match search_box w with
     | Some box => accepts_keys w box
     | None => false
     end
  && listing_appears w.

(** The handles [scrape_site] returns, located by session [d]. *)
Definition found (w : World) (d : session) : list WebElement :=
  if search_succeeds w then handle d <$> listing w else [].

(** The record of a listing item, when its three fields can be read. *)
Definition parse_one (w : World) (item : WebElement) : option dict :=
  title ← child_text w (ident item) (CssSelector "h2.product-title");
  price ← child_text w (ident item)
            (CssSelector "div[data-testid='price-block-customer-price'] span");
  link ← child_attribute w (ident item)
           (CssSelector "a.product-list-item-link") "href";
  Some [("title", PyStr title); ("price", PyStr price);
        ("link", match link with Some v => PyStr v | None => PyNone end)].

(** A field of a review: its text, or the sentinel when it cannot be
    read. *)
Definition review_field (w : World) (review : WebElement) (sel : string) : pyval :=
  default (PyStr "N/A") (PyStr <$> child_text w (ident review) (CssSelector sel)).

(** The record of a review. *)
Definition review_record (w : World) (review : WebElement) : dict :=
  [("rating", review_field w review "span.sr-only");
   ("title", review_field w review "h4.body-copy-lg");
   ("content", review_field w review "p.body-copy-lg");
   ("posted_by", review_field w review "p[data-testid='posted-by']")].

(** The detail page of the product at position [i] can be opened. *)
Definition detail_opens (w : World) (i : nat) (product : dict) : bool :=
  match dict_get product "link" with
  | Some (PyStr _) => opens (page w i)
  | _ => false
  end.

(** The product at position [i] after its iteration of the second loop. *)
Definition visited (w : World) (i : nat) (product : dict) : dict :=
  if detail_opens w i product
  then dict_set (dict_set product "rating" (PyStr "N/A"))
                "review_count" (PyStr "N/A")
  else product.

(** The records of a run whose search session is [d]. *)
Definition records (w : World) (d : session) : list dict :=
  imap (visited w) (omap (parse_one w) (found w d)).

(** The same browser, except for the detail page of the product at
    position [k]. *)
Definition with_page (w : World) (k : nat) (pg : Page) : World :=
  {| chrome_starts := chrome_starts w;
     start_error := start_error w;
     site_title := site_title w;
     clickable := clickable w;
     click_ok := click_ok w;
     search_box := search_box w;
     accepts_keys := accepts_keys w;
     listing_appears := listing_appears w;
     listing := listing w;
     child_text := child_text w;
     child_attribute := child_attribute w;
     child_elements := child_elements w;
     page := λ i, if Nat.eqb i k then pg else page w i |}.

(** A record of the listing stage has a title. *)
Definition listed (product : dict) : Prop :=
  is_Some (dict_get product "title").


(** Selenium refuses every command that is sent through a session that was
    quit.  [scrape_site] quits its session before it returns the listing
    items, so [scrape_products] looks below them through a quit session:
    in a browser driven by Selenium, every lookup below a listing item
    raises. *)
Definition refuses_stale_lookups (w : World) : Prop :=
  ∀ n by_,
    n ∈ listing w →
    child_text w n by_ = None ∧ ∀ name, child_attribute w n by_ name = None.

Definition titles (products : list dict) : list pyval :=
  omap (λ p, dict_get p "title") products.

(** The state after the events [evs]. *)
Definition after (s : St) (evs : list event) : St :=
  {| started := started s; trace := trace s ++ evs |}.

(** The same browser, except for what the optional clicks of
    [scrape_site] find and do. *)
Definition with_clicks (w : World) (c : string → option nat) (k : nat → bool)
  : World :=
  {| chrome_starts := chrome_starts w;
     start_error := start_error w;
     site_title := site_title w;
     clickable := c;
     click_ok := k;
     search_box := search_box w;
     accepts_keys := accepts_keys w;
     listing_appears := listing_appears w;
     listing := listing w;
     child_text := child_text w;
     child_attribute := child_attribute w;
     child_elements := child_elements w;
     page := page w |}.

(** An event of the review extraction of lines 142-172: a lookup below an
    element, or the line that reports the number of reviews. *)
Definition review_event (ev : event) : bool :=
  match ev with
  | Print (Extracted _) => true
  | Element _ (ChildElements _) => true
  | Element _ (ChildText _) => true
  | Element _ (ChildAttribute _ _) => true
  | _ => false
  end.

(** ** Concrete browsers *)

(** A shop whose search finds the items 1, 2 and 3, each with a title, a
    price and a link; the detail page of the product at position 1 does not
    open, the others show the button and the heading of the reviews. *)
Definition shop : World :=
  {| chrome_starts := λ _, true;
     start_error := λ _, SessionNotCreatedException;
     site_title := Some "Best Buy";
     clickable := λ _, Some 100;
     click_ok := λ _, true;
     search_box := Some 101;
     accepts_keys := λ _, true;
     listing_appears := true;
     listing := [1; 2; 3];
     child_text := λ _ by_,
       match by_ with
       | CssSelector sel =>
           if String.eqb sel "h2.product-title" then Some "Laptop"
           else Some "$999.99"
       | XPath _ => None
       end;
     child_attribute := λ _ _ _, Some (Some "https://www.bestbuy.com/p/1");
     child_elements := λ _ _, Some [];
     page := λ i, {| opens := negb (Nat.eqb i 1);
                     reviews_button := Some 200;
                     button_clicks := true;
                     reviews_heading := true |} |}.

(** A detail page that cannot be opened. *)
Definition dead_page : Page :=
  {| opens := false; reviews_button := None; button_clicks := false;
     reviews_heading := false |}.

(** The shop with one item, 7, whose title element is missing; its price and
    its link can be read. *)
Definition shop_without_title : World :=
  {| chrome_starts := chrome_starts shop;
     start_error := start_error shop;
     site_title := site_title shop;
     clickable := clickable shop;
     click_ok := click_ok shop;
     search_box := search_box shop;
     accepts_keys := accepts_keys shop;
     listing_appears := listing_appears shop;
     listing := [7];
     child_text := λ _ by_,
       match by_ with
       | CssSelector sel =>
           if String.eqb sel "h2.product-title" then None else Some "$999.99"
       | XPath _ => None
       end;
     child_attribute := child_attribute shop;
     child_elements := child_elements shop;
     page := page shop |}.

(** The shop when the search box never appears. *)
Definition shop_without_search_box : World :=
  {| chrome_starts := chrome_starts shop;
     start_error := start_error shop;
     site_title := site_title shop;
     clickable := clickable shop;
     click_ok := click_ok shop;
     search_box := None;
     accepts_keys := accepts_keys shop;
     listing_appears := listing_appears shop;
     listing := listing shop;
     child_text := child_text shop;
     child_attribute := child_attribute shop;
     child_elements := child_elements shop;
     page := page shop |}.

(** The shop as Selenium shows it to [scrape_products], with [items] as
    its result list: the search succeeds, and the lookups below the items,
    which go through the quit session of [scrape_site], are refused. *)
Definition stale_shop (items : list nat) : World :=
  {| chrome_starts := chrome_starts shop;
     start_error := start_error shop;
     site_title := site_title shop;
     clickable := clickable shop;
     click_ok := click_ok shop;
     search_box := search_box shop;
     accepts_keys := accepts_keys shop;
     listing_appears := listing_appears shop;
     listing := items;
     child_text := λ _ _, None;
     child_attribute := λ _ _ _, None;
     child_elements := λ _ _, None;
     page := page shop |}.

(** The shop on a machine without [chromedriver]: no session starts. *)
Definition shop_without_driver : World :=
  {| chrome_starts := λ _, false;
     start_error := λ _, NoSuchDriverException;
     site_title := site_title shop;
     clickable := clickable shop;
     click_ok := click_ok shop;
     search_box := search_box shop;
     accepts_keys := accepts_keys shop;
     listing_appears := listing_appears shop;
     listing := listing shop;
     child_text := child_text shop;
     child_attribute := child_attribute shop;
     child_elements := child_elements shop;
     page := page shop |}.

(** The shop on a machine where one Chrome session starts and a second one
    does not. *)
Definition one_browser : World :=
  {| chrome_starts := λ d, Nat.eqb d 0;
     start_error := λ _, SessionNotCreatedException;
     site_title := site_title shop;
     clickable := clickable shop;
     click_ok := click_ok shop;
     search_box := search_box shop;
     accepts_keys := accepts_keys shop;
     listing_appears := listing_appears shop;
     listing := listing shop;
     child_text := child_text shop;
     child_attribute := child_attribute shop;
     child_elements := child_elements shop;
     page := page shop |}.

(** * Proofs *)

Ltac py_unfold :=
  unfold mbind, mret, Py_bind, Py_ret, py_bind, py_ret, try_except,
    try_finally, raise, print, sleep, quit, emit, modify, answer, check in *.

(** The state reached is the starting state followed by some events. *)
Ltac trace_eq :=
  unfold after; cbn; rewrite <- ?app_assoc; reflexivity.

Ltac elem_of_trace :=
  repeat first [apply list_elem_of_here | apply list_elem_of_further].

Lemma after_nil s : after s [] = s.
Proof. destruct s. unfold after. simpl. by rewrite app_nil_r. Qed.

Lemma after_after s evs evs' : after (after s evs) evs' = after s (evs ++ evs').
Proof. unfold after. simpl. by rewrite app_assoc. Qed.

Lemma emit_run ev s : emit ev s = (Ok (), after s [ev]).
Proof. reflexivity. Qed.

Lemma bind_run {S A B} (m : Py S A) (f : A → Py S B) s :
  (m ≫= f) s = match m s with
               | (Ok a, s') => f a s'
               | (Raise e, s') => (Raise e, s')
               end.
Proof. reflexivity. Qed.

Lemma for_in_cons {S X V} (x : X) xs (body : X → V → Py S V) v s :
  for_in (x :: xs) body v s
  = match body x v s with
    | (Ok v', s') => for_in xs body v' s'
    | (Raise e, s') => (Raise e, s')
    end.
Proof. reflexivity. Qed.

(** ** Stage events *)

Lemma stage_events_dumped evs : forallb stage_event evs = true → dumped evs = [].
Proof.
  unfold dumped. induction evs as [|ev evs IH]; [done|].
  cbn. intros [Hev Hevs]%andb_true_iff. destruct ev; try done; by apply IH.
Qed.

Lemma stage_events_open live evs :
  forallb stage_event evs = true → open_sessions live evs = live.
Proof.
  induction evs as [|ev evs IH]; [done|].
  cbn. intros [Hev Hevs]%andb_true_iff. destruct ev; try done; by apply IH.
Qed.

Lemma stage_events_no_start d evs :
  forallb stage_event evs = true → Start d ∉ evs.
Proof.
  intros Hevs Hin. rewrite forallb_forall in Hevs.
  by apply list_elem_of_In, Hevs in Hin.
Qed.

Lemma sessions_live_app live evs evs' :
  sessions_live live (evs ++ evs')
  = sessions_live live evs && sessions_live (open_sessions live evs) evs'.
Proof.
  revert live. induction evs as [|ev evs IH]; intros live; [done|].
  destruct ev; cbn; rewrite ?IH; try done; by rewrite andb_assoc.
Qed.

(** In a trace whose commands all go through open sessions, the session of
    an element command was open at the start or is started in the trace. *)
Lemma sessions_live_element live evs e c :
  sessions_live live evs = true → Element e c ∈ evs →
  parent e ∈ live ∨ Start (parent e) ∈ evs.
Proof.
  revert live. induction evs as [|ev evs IH]; intros live Hlive Hin.
  { by apply elem_of_nil in Hin. }
  apply elem_of_cons in Hin as [<-|Hin].
  - cbn in Hlive. apply andb_true_iff in Hlive as [Hd _].
    left. by apply bool_decide_eq_true in Hd.
  - assert (∀ live', sessions_live live' evs = true →
                     parent e ∈ live' ∨ Start (parent e) ∈ ev :: evs) as Hrest.
    { intros live' H'. destruct (IH live' H' Hin) as [?|?]; [by left|].
      right. by apply list_elem_of_further. }
    destruct ev; cbn in Hlive;
      try (apply andb_true_iff in Hlive as [_ Hlive]);
      try (destruct (Hrest _ Hlive) as [?|?]; [by left|by right]).
    + destruct (Hrest _ Hlive) as [Hd|?]; [|by right].
      apply elem_of_cons in Hd as [->|?]; [|by left].
      right. apply list_elem_of_here.
    + destruct (Hrest _ Hlive) as [Hd|?]; [|by right].
      left. by apply list_elem_of_filter in Hd as [_ ?].
Qed.

Lemma parse_started_element e evs :
  e ∈ parse_started evs → ∃ c, Element e c ∈ evs.
Proof.
  unfold parse_started. intros (ev & Hev & Hsome)%list_elem_of_omap.
  destruct ev as [| | |e' c| | |]; try discriminate Hsome.
  destruct c as [| | |[sel|?]| |]; try discriminate Hsome.
  destruct (String.eqb sel "h2.product-title"); [|discriminate Hsome].
  injection Hsome as ->. by eexists.
Qed.

Section ScraperFacts.
Variable w : World.

(** An optional click never raises. *)
Lemma click_one_run driver sel s :
  ∃ evs, click_one w driver sel () s = (Ok (), after s evs)
         ∧ forallb stage_event evs = true.
Proof.
  unfold click_one, wait_until, click. py_unfold. cbn.
  destruct (clickable w sel) as [n|]; cbn; [destruct (click_ok w n); cbn|].
  all: eexists; split; [trace_eq|done].
Qed.

Lemma click_optional_run driver sels s :
  ∃ evs, click_optional w driver sels s = (Ok (), after s evs)
         ∧ forallb stage_event evs = true.
Proof.
  unfold click_optional. revert s.
  induction sels as [|sel sels IH]; intros s.
  - exists []. by rewrite after_nil.
  - rewrite for_in_cons.
    destruct (click_one_run driver sel s) as (evs1 & -> & Hb1).
    destruct (IH (after s evs1)) as (evs2 & -> & Hb2).
    exists (evs1 ++ evs2). rewrite after_after. split; [done|].
    by rewrite forallb_app, Hb1, Hb2.
Qed.

(** [scrape_site] returns whenever its browser starts: the handles of the
    result list when the search succeeds, the empty list otherwise.  Its
    session is started first and quit last. *)
Lemma scrape_site_run url term sels sel s :
  chrome_starts w (started s) = true →
  ∃ mid,
    scrape_site w url term sels sel s
    = (Ok (found w (started s)),
       {| started := S (started s);
          trace := trace s ++ Start (started s) :: mid ++ [Quit (started s)] |})
    ∧ forallb stage_event mid = true.
Proof.
  intros Hstart. unfold scrape_site. rewrite bind_run.
  unfold get_driver. rewrite Hstart. cbv beta zeta. unfold try_finally.
  match goal with
  | |- context [try_except ?b ?h ?s1] =>
      assert (∃ mid, try_except b h s1
                     = (Ok (found w (started s)), after s1 mid)
                     ∧ forallb stage_event mid = true)
        as (mid & -> & Hmid)
  end.
  { unfold found, search_succeeds, wait_until, clear, send_keys.
    py_unfold. cbn -[click_optional].
    destruct (site_title w) as [title|]; cbn -[click_optional].
    - match goal with
      | |- context [click_optional w ?d sels ?s1] =>
          destruct (click_optional_run d sels s1) as (evs & -> & Hb)
      end.
      cbn.
      destruct (search_box w) as [box|]; cbn;
        [destruct (accepts_keys w box); cbn;
         [destruct (listing_appears w); cbn|]|].
      all: eexists; split; [trace_eq|].
      all: cbn; by rewrite forallb_app, Hb.
    - eexists; split; [trace_eq|done]. }
  exists mid. unfold quit. rewrite emit_run. split; [|done].
  unfold after. cbn. by rewrite <- !app_assoc.
Qed.

(** An iteration of the first loop never raises: it appends the record of
    the item, or nothing when a field cannot be read. *)
Lemma parse_item_run item products s :
  ∃ evs,
    parse_item w item products s
    = (Ok (products ++ option_list (parse_one w item)), after s evs)
    ∧ forallb stage_event evs = true ∧ parse_started evs = [item].
Proof.
  unfold parse_item, parse_one, find_text, find_attribute. py_unfold. cbn.
  destruct (child_text w (ident item) (CssSelector "h2.product-title"))
    as [title|]; cbn;
    [destruct (child_text w (ident item)
                 (CssSelector
                    "div[data-testid='price-block-customer-price'] span"))
       as [price|]; cbn;
     [destruct (child_attribute w (ident item)
                  (CssSelector "a.product-list-item-link") "href")
        as [link|]; cbn|]|].
  all: rewrite ?app_nil_r.
  all: eexists; split; [trace_eq|done].
Qed.

Lemma parse_loop_run items products s :
  ∃ evs,
    for_in items (parse_item w) products s
    = (Ok (products ++ omap (parse_one w) items), after s evs)
    ∧ forallb stage_event evs = true ∧ parse_started evs = items.
Proof.
  revert products s. induction items as [|item items IH]; intros products s.
  - exists []. cbn. by rewrite after_nil, app_nil_r.
  - rewrite for_in_cons.
    destruct (parse_item_run item products s) as (evs1 & -> & Hb1 & Hp1).
    destruct (IH (products ++ option_list (parse_one w item)) (after s evs1))
      as (evs2 & -> & Hb2 & Hp2).
    exists (evs1 ++ evs2). rewrite after_after. split; [|split].
    + do 2 f_equal. rewrite <- app_assoc. f_equal.
      change (omap (parse_one w) (item :: items))
        with (match parse_one w item with
              | Some p => p :: omap (parse_one w) items
              | None => omap (parse_one w) items
              end).
      by destruct (parse_one w item).
    + by rewrite forallb_app, Hb1, Hb2.
    + unfold parse_started in *. by rewrite omap_app, Hp1, Hp2.
Qed.

Lemma parse_listing_run items s :
  ∃ evs,
    parse_listing w items s = (Ok (omap (parse_one w) items), after s evs)
    ∧ forallb stage_event evs = true ∧ parse_started evs = items.
Proof. apply (parse_loop_run items [] s). Qed.

Lemma review_field_run review sel s :
  try_except (find_text w review sel) (λ _, mret (PyStr "N/A")) s
  = (Ok (review_field w review sel),
     after s [Element review (ChildText (CssSelector sel))]).
Proof.
  unfold review_field, find_text. py_unfold. cbn.
  by destruct (child_text w (ident review) (CssSelector sel)).
Qed.

(** An iteration of the review loop never raises and appends one record,
    whatever fields are missing. *)
Lemma extract_review_run review reviews_data s :
  ∃ evs,
    extract_review w review reviews_data s
    = (Ok (reviews_data ++ [review_record w review]), after s evs).
Proof.
  unfold extract_review. repeat (rewrite bind_run, review_field_run).
  rewrite !after_after. by eexists.
Qed.

Lemma review_loop_run reviews reviews_data s :
  ∃ evs,
    for_in reviews (extract_review w) reviews_data s
    = (Ok (reviews_data ++ (review_record w <$> reviews)), after s evs).
Proof.
  revert reviews_data s.
  induction reviews as [|review reviews IH]; intros reviews_data s.
  - exists []. cbn. by rewrite after_nil, app_nil_r.
  - rewrite for_in_cons.
    destruct (extract_review_run review reviews_data s) as (evs1 & ->).
    destruct (IH (reviews_data ++ [review_record w review]) (after s evs1))
      as (evs2 & ->).
    exists (evs1 ++ evs2). by rewrite after_after, <- app_assoc.
Qed.

Lemma setitem_middle (pre : list dict) p post k v :
  setitem (pre ++ p :: post) (length pre) k v = pre ++ dict_set p k v :: post.
Proof.
  unfold setitem. rewrite alter_app_r_alt by lia.
  by rewrite Nat.sub_diag.
Qed.

(** An iteration of the second loop never raises; it changes the product at
    its own position only. *)
Lemma visit_run driver (pre : list dict) p post title s :
  dict_get p "title" = Some title →
  ∃ evs,
    visit w driver (length pre) (pre ++ p :: post) s
    = (Ok (pre ++ visited w (length pre) p :: post), after s evs)
    ∧ forallb stage_event evs = true ∧ visits evs = [title].
Proof.
  intros Htitle. unfold visit. rewrite list_lookup_middle by done.
  unfold getitem, wait_until, click, reviews_container, visited, detail_opens.
  py_unfold. rewrite Htitle. cbn.
  destruct (dict_get p "link") as [link|]; cbn;
    [destruct link; cbn;
     try (destruct (opens (page w (length pre))); cbn;
          [destruct (reviews_button (page w (length pre))) as [n|]; cbn;
           [destruct (button_clicks (page w (length pre))); cbn;
            [destruct (reviews_heading (page w (length pre))); cbn|]|]|])|].
  all: rewrite ?setitem_middle.
  all: eexists; split; [trace_eq|done].
Qed.

Lemma visit_loop_run driver (pre products : list dict) s :
  Forall listed products →
  ∃ evs,
    for_in (seq (length pre) (length products)) (visit w driver)
      (pre ++ products) s
    = (Ok (pre ++ imap (λ i, visited w (length pre + i)) products), after s evs)
    ∧ forallb stage_event evs = true ∧ visits evs = titles products.
Proof.
  intros Hl. revert pre s.
  induction Hl as [|p products [title Hp] _ IH]; intros pre s.
  - exists []. cbn. by rewrite after_nil.
  - cbn [length seq]. rewrite for_in_cons.
    destruct (visit_run driver pre p products title s Hp)
      as (evs1 & -> & Hb1 & Hv1).
    destruct (IH (pre ++ [visited w (length pre) p]) (after s evs1))
      as (evs2 & Hrun & Hb2 & Hv2).
    rewrite length_app in Hrun. cbn [length] in Hrun.
    rewrite Nat.add_1_r, <- app_assoc in Hrun. cbn [app] in Hrun.
    rewrite Hrun. exists (evs1 ++ evs2). rewrite after_after.
    split; [|split].
    + do 2 f_equal. rewrite <- app_assoc. cbn [app]. f_equal.
      rewrite imap_cons. f_equal.
      * by rewrite Nat.add_0_r.
      * apply imap_ext. intros i x _. cbn. f_equal. lia.
    + by rewrite forallb_app, Hb1, Hb2.
    + unfold visits, titles in *. rewrite omap_app, Hv1, Hv2.
      cbn. by rewrite Hp.
Qed.

(** The second loop never raises, whatever the detail pages do: every
    product is visited and keeps its position. *)
Lemma visit_products_run driver products s :
  Forall listed products →
  ∃ evs,
    visit_products w driver products s
    = (Ok (imap (visited w) products), after s evs)
    ∧ forallb stage_event evs = true ∧ visits evs = titles products.
Proof.
  intros Hl. apply (visit_loop_run driver [] products s Hl).
Qed.

Lemma show_loop_run (products : list dict) s :
  ∃ evs, for_in products show_product () s = (Ok (), after s evs)
         ∧ forallb stage_event evs = true.
Proof.
  revert s. induction products as [|p products IH]; intros s.
  - exists []. cbn. by rewrite after_nil.
  - rewrite for_in_cons. unfold show_product at 1, print. rewrite emit_run.
    destruct (IH (after s [Print (ShowProduct p)])) as (evs & -> & Hb).
    exists (Print (ShowProduct p) :: evs). by rewrite after_after.
Qed.

Lemma parse_one_listed item p : parse_one w item = Some p → listed p.
Proof.
  unfold parse_one, listed. intros H.
  destruct (child_text w (ident item) (CssSelector "h2.product-title")); [|done].
  destruct (child_text w (ident item)
              (CssSelector "div[data-testid='price-block-customer-price'] span"));
    [|done].
  destruct (child_attribute w (ident item)
              (CssSelector "a.product-list-item-link") "href"); [|done].
  cbn in H. injection H as <-. by eexists.
Qed.

Lemma parsed_listed items : Forall listed (omap (parse_one w) items).
Proof.
  apply Forall_forall. intros p Hp.
  apply list_elem_of_omap in Hp as (item & _ & Hitem).
  by eapply parse_one_listed.
Qed.

(** The trace of a run of [scrape_products] whose two browsers start: the
    search session (session 1) is started and quit inside [scrape_site];
    the stages that follow parse every handle found; then the file is
    opened, and the run ends with the one call of [json.dump], on the
    records returned, or with the exception of [open]. *)
Lemma run_in_stages open_error :
  chrome_starts w 0 = true → chrome_starts w 1 = true →
  ∃ mid evs,
    run_in w open_error
    = (match open_error with
       | None => Ok (records w 1)
       | Some e => Raise e
       end,
       {| started := 2;
          trace := Start 0 :: Start 1 :: mid ++ Quit 1 :: evs
                   ++ match open_error with
                      | None =>
                          [Dump "data/products_raw.json" "utf-8" 2 false
                             (PyList (PyDict <$> records w 1));
                           Print (Saved (length (records w 1)))]
                      | Some _ => []
                      end
                   ++ [Quit 0] |})
    ∧ forallb stage_event mid = true
    ∧ forallb stage_event evs = true
    ∧ ∃ evs', evs = evs' ++ drop (length evs') evs
              ∧ parse_started evs' = found w 1.
Proof.
  intros H0 H1. unfold run_in, scrape_products. rewrite bind_run.
  unfold get_driver. cbn [started trace]. rewrite H0. cbv beta zeta.
  unfold try_finally. rewrite bind_run.
  match goal with
  | |- context [scrape_site w ?u ?t ?c ?i ?s] =>
      destruct (scrape_site_run u t c i s H1) as (mid & -> & Hmid)
  end.
  cbn [started trace app]. rewrite bind_run.
  match goal with
  | |- context [parse_listing w ?items ?s] =>
      destruct (parse_listing_run items s) as (evs2 & -> & Hb2 & Hp2)
  end.
  unfold print. rewrite bind_run, emit_run, bind_run.
  match goal with
  | |- context [visit_products w ?d ?ps ?s] =>
      destruct (visit_products_run d ps s (parsed_listed _))
        as (evs3 & -> & Hb3 & _)
  end.
  rewrite bind_run, emit_run, bind_run.
  match goal with
  | |- context [for_in ?ps show_product () ?s] =>
      destruct (show_loop_run ps s) as (evs4 & -> & Hb4)
  end.
  exists mid,
    (evs2 ++ [Print (FoundProducts (length (omap (parse_one w) (found w 1))))]
     ++ evs3 ++ [Print FinalList] ++ evs4).
  split; [|split; [done|split]].
  - unfold save, quit. destruct open_error as [e|].
    + rewrite bind_run. unfold raise. rewrite emit_run, !after_after.
      unfold after. cbn. do 3 f_equal.
      rewrite <- !app_assoc. cbn. by rewrite <- !app_assoc.
    + rewrite bind_run, emit_run, bind_run, emit_run.
      cbn [mret Py_ret py_ret]. rewrite emit_run. rewrite !after_after.
      unfold records, after, py_ret. cbn. do 3 f_equal.
      rewrite <- !app_assoc. cbn. by rewrite <- !app_assoc.
  - rewrite !forallb_app, Hb2, Hb3, Hb4. done.
  - exists evs2. split; [|done].
    by rewrite drop_app_length.
Qed.

Lemma run_stages :
  chrome_starts w 0 = true → chrome_starts w 1 = true →
  ∃ mid evs,
    run w
    = (Ok (records w 1),
       {| started := 2;
          trace := Start 0 :: Start 1 :: mid ++ Quit 1 :: evs
                   ++ [Dump "data/products_raw.json" "utf-8" 2 false
                         (PyList (PyDict <$> records w 1));
                       Print (Saved (length (records w 1)));
                       Quit 0] |})
    ∧ forallb stage_event mid = true
    ∧ forallb stage_event evs = true
    ∧ ∃ evs', evs = evs' ++ drop (length evs') evs
              ∧ parse_started evs' = found w 1.
Proof.
  intros H0 H1. exact (run_in_stages None H0 H1).
Qed.

(** A run of [scrape_products] whose two browsers start returns the records
    in closed form and hands exactly them to [json.dump], once. *)
Lemma run_records :
  chrome_starts w 0 = true → chrome_starts w 1 = true →
  ∃ tr,
    run w = (Ok (records w 1), {| started := 2; trace := tr |})
    ∧ dumped tr = [PyList (PyDict <$> records w 1)].
Proof.
  intros H0 H1.
  destruct (run_stages H0 H1) as (mid & evs & -> & Hmid & Hevs & _).
  eexists. split; [reflexivity|].
  apply stage_events_dumped in Hmid, Hevs.
  unfold dumped in *. cbn. rewrite omap_app, Hmid. cbn.
  by rewrite omap_app, Hevs.
Qed.

End ScraperFacts.

(** ** The claims about the scraper *)

Lemma dict_get_set_ne d k v key :
  key ≠ k → dict_get (dict_set d k v) key = dict_get d key.
Proof.
  intros Hne. induction d as [|[k' v'] d IH]; cbn.
  - destruct (String.eqb_spec k key); congruence.
  - destruct (String.eqb_spec k' k) as [->|]; cbn.
    + destruct (String.eqb_spec k key); congruence.
    + by rewrite IH.
Qed.

(** The visit of a product leaves its listing fields as they were. *)
Lemma visited_keeps w i p key :
  key ≠ "rating" → key ≠ "review_count" →
  dict_get (visited w i p) key = dict_get p key.
Proof.
  intros H1 H2. unfold visited. destruct (detail_opens w i p); [|done].
  by rewrite !dict_get_set_ne.
Qed.

Lemma visited_with_page w k pg j p :
  j ≠ k → visited (with_page w k pg) j p = visited w j p.
Proof.
  intros Hne. unfold visited, detail_opens. cbn.
  by destruct (Nat.eqb_spec j k).
Qed.

(** C1. Fault isolation of the second loop: whatever the detail page of the
    product at position [k] does (it fails to open, its review button never
    appears, the click fails, ...), the run still returns, with as many
    records as before; the records at every other position are the same, and
    the record at position [k] is kept with its title, price and link.  The
    loop itself returns for every browser and announces the visit of every
    product, so it goes on to the next product after a failure. *)
Theorem detail_failure_is_isolated (w : World) (k : nat) (pg : Page) :
  chrome_starts w 0 = true → chrome_starts w 1 = true →
  (∃ ps ps',
     result (run w) = Ok ps
     ∧ result (run (with_page w k pg)) = Ok ps'
     ∧ length ps' = length ps
     ∧ (∀ j, j ≠ k → ps' !! j = ps !! j)
     ∧ (∀ p, ps !! k = Some p →
          ∃ p', ps' !! k = Some p'
                ∧ dict_get p' "title" = dict_get p "title"
                ∧ dict_get p' "price" = dict_get p "price"
                ∧ dict_get p' "link" = dict_get p "link"))
  ∧ (∀ driver products s,
       Forall listed products →
       ∃ products' evs,
         visit_products (with_page w k pg) driver products s
         = (Ok products', after s evs)
         ∧ length products' = length products
         ∧ visits evs = titles products).
Proof.
  intros H0 H1. split.
  - destruct (run_records w H0 H1) as (tr & Hrun & _).
    destruct (run_records (with_page w k pg) H0 H1) as (tr' & Hrun' & _).
    exists (records w 1), (records (with_page w k pg) 1).
    rewrite Hrun, Hrun'. unfold records.
    change (omap (parse_one (with_page w k pg)) (found (with_page w k pg) 1))
      with (omap (parse_one w) (found w 1)).
    set (parsed := omap (parse_one w) (found w 1)).
    repeat split.
    + by rewrite !length_imap.
    + intros j Hj. rewrite !list_lookup_imap.
      destruct (parsed !! j) as [p|]; [|done]. cbn.
      by rewrite visited_with_page.
    + intros p. rewrite !list_lookup_imap.
      destruct (parsed !! k) as [p0|]; [|done]. cbn.
      intros [= <-]. eexists. split; [done|].
      by rewrite !visited_keeps.
  - intros driver products s Hl.
    destruct (visit_products_run (with_page w k pg) driver products s Hl)
      as (evs & Hrun & _ & Hv).
    eexists _, evs. split; [exact Hrun|]. by rewrite length_imap.
Qed.

Lemma detail_failure_is_isolated_witness :
  chrome_starts shop 0 = true ∧ chrome_starts shop 1 = true
  ∧ ((∃ ps ps',
        result (run shop) = Ok ps
        ∧ result (run (with_page shop 0 dead_page)) = Ok ps'
        ∧ length ps' = length ps
        ∧ (∀ j, j ≠ 0 → ps' !! j = ps !! j)
        ∧ (∀ p, ps !! 0 = Some p →
             ∃ p', ps' !! 0 = Some p'
                   ∧ dict_get p' "title" = dict_get p "title"
                   ∧ dict_get p' "price" = dict_get p "price"
                   ∧ dict_get p' "link" = dict_get p "link"))
     ∧ (∀ driver products s,
          Forall listed products →
          ∃ products' evs,
            visit_products (with_page shop 0 dead_page) driver products s
            = (Ok products', after s evs)
            ∧ length products' = length products
            ∧ visits evs = titles products)).
Proof.
  split; [reflexivity|]. split; [reflexivity|].
  apply (detail_failure_is_isolated shop 0 dead_page); reflexivity.
Defined.

(** An item with a missing field is reported and leaves the records as they
    are. *)
Lemma parse_item_skips w item products s :
  parse_one w item = None →
  ∃ evs e,
    parse_item w item products s = (Ok products, after s evs)
    ∧ Print (SkippedProduct e) ∈ evs.
Proof.
  unfold parse_item, parse_one, find_text, find_attribute. py_unfold. cbn.
  destruct (child_text w (ident item) (CssSelector "h2.product-title"))
    as [title|]; cbn;
    [destruct (child_text w (ident item)
                 (CssSelector
                    "div[data-testid='price-block-customer-price'] span"))
       as [price|]; cbn;
     [destruct (child_attribute w (ident item)
                  (CssSelector "a.product-list-item-link") "href")
        as [link|]; cbn|]|].
  all: intros Hnone; try discriminate Hnone.
  all: eexists _, _; split; [trace_eq|].
  all: repeat first [apply list_elem_of_here | apply list_elem_of_further].
Qed.

(** C2, as the code has it.  The three listing fields are read inside one
    guarded block.  The first loop returns, in listing order, the records of
    the items whose title, price and link can all be read, each with exactly
    these three fields; an item with a missing title, price or link is
    reported as skipped and contributes no record, and no sentinel is
    written. *)
Theorem listing_item_is_all_or_nothing (w : World) :
  (∀ items s,
     ∃ evs, parse_listing w items s
            = (Ok (omap (parse_one w) items), after s evs))
  ∧ (∀ item title price link,
       child_text w (ident item) (CssSelector "h2.product-title") = Some title
       ∧ child_text w (ident item)
           (CssSelector "div[data-testid='price-block-customer-price'] span")
         = Some price
       ∧ child_attribute w (ident item)
           (CssSelector "a.product-list-item-link") "href" = Some link →
       parse_one w item
       = Some [("title", PyStr title); ("price", PyStr price);
               ("link", match link with
                        | Some v => PyStr v
                        | None => PyNone
                        end)])
  ∧ (∀ item products s,
       child_text w (ident item) (CssSelector "h2.product-title") = None
       ∨ child_text w (ident item)
           (CssSelector "div[data-testid='price-block-customer-price'] span")
         = None
       ∨ child_attribute w (ident item)
           (CssSelector "a.product-list-item-link") "href" = None →
       parse_one w item = None
       ∧ ∃ evs e,
           parse_item w item products s = (Ok products, after s evs)
           ∧ Print (SkippedProduct e) ∈ evs).
Proof.
  split; [|split].
  - intros items s. destruct (parse_listing_run w items s) as (evs & H & _).
    by exists evs.
  - intros item title price link (Ht & Hp & Hl).
    unfold parse_one. by rewrite Ht, Hp, Hl.
  - intros item products s Hmiss.
    assert (parse_one w item = None) as Hnone.
    { unfold parse_one.
      destruct (child_text w (ident item) (CssSelector "h2.product-title"));
        [|done].
      destruct (child_text w (ident item)
                  (CssSelector
                     "div[data-testid='price-block-customer-price'] span"));
        [|done].
      destruct (child_attribute w (ident item)
                  (CssSelector "a.product-list-item-link") "href"); [|done].
      by destruct Hmiss as [?|[?|?]]. }
    split; [done|]. by apply parse_item_skips.
Qed.

(** C2, as the specification states it, fails: the only item of
    [shop_without_title] has a price and a link but no title element, and
    the run returns and saves no record at all, where the claim asks for a
    record with a sentinel title. *)
Lemma missing_title_drops_item :
  found shop_without_title 1 = [handle 1 7]
  ∧ child_text shop_without_title 7 (CssSelector "h2.product-title") = None
  ∧ child_text shop_without_title 7
      (CssSelector "div[data-testid='price-block-customer-price'] span")
    = Some "$999.99"
  ∧ child_attribute shop_without_title 7
      (CssSelector "a.product-list-item-link") "href"
    = Some (Some "https://www.bestbuy.com/p/1")
  ∧ result (run shop_without_title) = Ok []
  ∧ dumped (trace (final (run shop_without_title))) = [PyList []].
Proof. repeat split; vm_compute; reflexivity. Qed.

(** C3. The review loop never raises and appends exactly one record per
    review handle, in order; the record has the four fields, and each field
    is the text of its sub-element when that can be read and the sentinel
    ["N/A"] otherwise, independently of the other three fields. *)
Theorem review_fields_fall_back_to_sentinel (w : World)
    (review_items : list WebElement) (s : St) :
  ∃ reviews_data evs,
    extract_reviews w review_items s = (Ok reviews_data, after s evs)
    ∧ length reviews_data = length review_items
    ∧ ∀ i review,
        review_items !! i = Some review →
        ∃ r, reviews_data !! i = Some r
             ∧ dict_keys r = ["rating"; "title"; "content"; "posted_by"]
             ∧ dict_get r "rating"
               = Some (default (PyStr "N/A")
                         (PyStr <$> child_text w (ident review)
                                      (CssSelector "span.sr-only")))
             ∧ dict_get r "title"
               = Some (default (PyStr "N/A")
                         (PyStr <$> child_text w (ident review)
                                      (CssSelector "h4.body-copy-lg")))
             ∧ dict_get r "content"
               = Some (default (PyStr "N/A")
                         (PyStr <$> child_text w (ident review)
                                      (CssSelector "p.body-copy-lg")))
             ∧ dict_get r "posted_by"
               = Some (default (PyStr "N/A")
                         (PyStr <$> child_text w (ident review)
                                      (CssSelector "p[data-testid='posted-by']"))).
Proof.
  destruct (review_loop_run w review_items [] s) as (evs & Hrun).
  exists (review_record w <$> review_items), evs.
  split; [exact Hrun|]. split; [by rewrite length_fmap|].
  intros i review Hi. exists (review_record w review).
  rewrite list_lookup_fmap, Hi. by repeat split.
Qed.

Lemma length_omap_le {A B} (f : A → option B) (l : list A) :
  length (omap f l) ≤ length l.
Proof.
  induction l as [|x l IH]; [done|].
  change (omap f (x :: l))
    with (match f x with Some y => y :: omap f l | None => omap f l end).
  destruct (f x); cbn; lia.
Qed.

Lemma length_found w d : length (found w d) ≤ length (listing w).
Proof.
  unfold found. destruct (search_succeeds w); cbn; [|lia].
  by rewrite length_fmap.
Qed.

Lemma open_sessions_app live evs evs' :
  open_sessions live (evs ++ evs')
  = open_sessions (open_sessions live evs) evs'.
Proof.
  revert live. induction evs as [|ev evs IH]; intros live; [done|].
  destruct ev; cbn; by rewrite ?IH.
Qed.

(** A browser whose first session starts and whose second does not. *)
Lemma second_browser_failure (w : World) (open_error : option exn) :
  chrome_starts w 0 = true → chrome_starts w 1 = false →
  run_in w open_error
  = (Raise (start_error w 1), {| started := 1; trace := [Start 0; Quit 0] |}).
Proof.
  intros H0 H1.
  unfold run_in, scrape_products, scrape_site, get_driver. py_unfold. cbn.
  rewrite H0. cbn. by rewrite H1.
Qed.

Lemma parse_started_app evs evs' :
  parse_started (evs ++ evs') = parse_started evs ++ parse_started evs'.
Proof. unfold parse_started. apply omap_app. Qed.

(** A run of [scrape_products] whose two browsers start, whether the file
    opens or not: what it returns, what it hands to [json.dump], the
    handles it parses and the sessions it leaves open. *)
Lemma run_in_records w open_error :
  chrome_starts w 0 = true → chrome_starts w 1 = true →
  ∃ tr,
    run_in w open_error
    = (match open_error with
       | None => Ok (records w 1)
       | Some e => Raise e
       end, {| started := 2; trace := tr |})
    ∧ dumped tr = match open_error with
                  | None => [PyList (PyDict <$> records w 1)]
                  | Some _ => []
                  end
    ∧ open_sessions [] tr = []
    ∧ (∀ item, item ∈ found w 1 → item ∈ parse_started tr)
    ∧ (open_error = None → Print (Saved (length (records w 1))) ∈ tr).
Proof.
  intros H0 H1.
  destruct (run_in_stages w open_error H0 H1)
    as (mid & evs & -> & Hmid & Hevs & evs' & Hsplit & Hparse).
  eexists. split; [reflexivity|].
  pose proof (stage_events_dumped _ Hmid) as Hdmid.
  pose proof (stage_events_dumped _ Hevs) as Hdevs.
  split; [|split; [|split]].
  - unfold dumped in *. cbn. rewrite omap_app, Hdmid. cbn.
    rewrite omap_app, Hdevs, omap_app. by destruct open_error.
  - cbn [open_sessions].
    rewrite open_sessions_app, (stage_events_open _ _ Hmid).
    cbn [open_sessions].
    rewrite open_sessions_app, (stage_events_open _ _ Hevs).
    rewrite open_sessions_app. by destruct open_error.
  - intros item Hitem.
    change (Start 0 :: Start 1 :: ?l) with ([Start 0; Start 1] ++ l).
    rewrite parse_started_app. apply elem_of_app. right.
    rewrite parse_started_app. apply elem_of_app. right.
    change (Quit 1 :: ?l) with ([Quit 1] ++ l).
    rewrite parse_started_app. apply elem_of_app. right.
    rewrite parse_started_app. apply elem_of_app. left.
    rewrite Hsplit, parse_started_app. apply elem_of_app. left.
    by rewrite Hparse.
  - intros ->. apply list_elem_of_further, list_elem_of_further.
    apply elem_of_app. right. apply list_elem_of_further.
    apply elem_of_app. right. apply elem_of_app. left.
    apply list_elem_of_further, list_elem_of_here.
Qed.

(** For every browser, a record of a run has the three listing fields, and
    the rating and the review count exactly when its detail page opened;
    it never has a field for its reviews. *)
Lemma record_fields w d p :
  p ∈ records w d →
  (dict_keys p = ["title"; "price"; "link"]
   ∨ dict_keys p = ["title"; "price"; "link"; "rating"; "review_count"])
  ∧ dict_get p "reviews" = None.
Proof.
  unfold records. intros (i & Hi)%list_elem_of_lookup.
  rewrite list_lookup_imap in Hi.
  destruct (omap (parse_one w) (found w d) !! i) as [p0|] eqn:Hp0;
    [|done].
  injection Hi as <-.
  apply list_elem_of_lookup_2, list_elem_of_omap in Hp0 as (item & _ & Hitem).
  unfold parse_one in Hitem.
  destruct (child_text w (ident item) (CssSelector "h2.product-title"));
    [|done].
  destruct (child_text w (ident item)
              (CssSelector "div[data-testid='price-block-customer-price'] span"));
    [|done].
  destruct (child_attribute w (ident item)
              (CssSelector "a.product-list-item-link") "href"); [|done].
  cbn in Hitem. injection Hitem as <-.
  unfold visited. destruct (detail_opens _ _ _); cbn; auto.
Qed.

(** C7, as the code has it.  No cap is applied anywhere in the scraper (the
    limits of [config.py] are not read by it).  The first loop starts the
    parsing of every handle it is given, in order, and returns at most one
    record per handle; in a run, every handle [scrape_site] found is
    parsed, however many there are.  No record a run returns has a field
    for its reviews, and the review loop, were it reached, applies no cap
    either: it returns exactly one record per review handle. *)
Theorem listing_and_reviews_are_not_capped (w : World) :
  (∀ items s,
     ∃ products evs,
       parse_listing w items s = (Ok products, after s evs)
       ∧ parse_started evs = items
       ∧ length products ≤ length items)
  ∧ (∀ open_error item,
       chrome_starts w 0 = true → chrome_starts w 1 = true →
       item ∈ found w 1 →
       item ∈ parse_started (trace (final (run_in w open_error))))
  ∧ (∀ open_error products p,
       result (run_in w open_error) = Ok products → p ∈ products →
       dict_get p "reviews" = None)
  ∧ (∀ review_items s,
       ∃ reviews_data evs,
         extract_reviews w review_items s = (Ok reviews_data, after s evs)
         ∧ length reviews_data = length review_items).
Proof.
  split; [|split; [|split]].
  - intros items s.
    destruct (parse_listing_run w items s) as (evs & Hrun & _ & Hp).
    eexists _, evs. split; [exact Hrun|]. split; [done|].
    apply length_omap_le.
  - intros open_error item H0 H1 Hitem.
    destruct (run_in_records w open_error H0 H1)
      as (tr & -> & _ & _ & Hparse & _).
    by apply Hparse.
  - intros open_error products p Hres Hp.
    destruct (chrome_starts w 0) eqn:H0;
      [destruct (chrome_starts w 1) eqn:H1|].
    + destruct (run_in_records w open_error H0 H1) as (tr & Hrun & _).
      rewrite Hrun in Hres. cbn in Hres.
      destruct open_error; [done|]. injection Hres as <-.
      by apply record_fields in Hp as [_ ?].
    + rewrite (second_browser_failure w open_error H0 H1) in Hres. done.
    + unfold run_in, scrape_products, get_driver in Hres. py_unfold.
      cbn in Hres. by rewrite H0 in Hres.
  - intros review_items s.
    destruct (review_loop_run w review_items [] s) as (evs & Hrun).
    eexists _, evs. split; [exact Hrun|]. cbn. by rewrite length_fmap.
Qed.

(** C7, as the specification states it, fails: when the search finds 51
    items, the run starts the parsing of all 51 handles, more than
    [MAX_PRODUCTS] (and than [MAX_PRODUCTS_DETAIL]).  In [stale_shop] every
    one of these lookups is refused, as Selenium refuses them, and the run
    returns no record. *)
Lemma more_items_than_the_cap :
  length (listing (stale_shop (seq 0 51))) = 51
  ∧ length (parse_started (trace (final (run (stale_shop (seq 0 51)))))) = 51
  ∧ result (run (stale_shop (seq 0 51))) = Ok []
  ∧ Config.MAX_PRODUCTS = 50
  ∧ Config.MAX_PRODUCTS_DETAIL = 20.
Proof.
  split; [reflexivity|]. split; [by vm_compute|].
  split; [by vm_compute|done].
Qed.

(** A run whose browser cannot start raises and writes nothing. *)
Lemma run_without_browser w :
  chrome_starts w 0 = false ∨ chrome_starts w 1 = false →
  result (run w) = Raise (start_error w (if chrome_starts w 0 then 1 else 0))
  ∧ dumped (trace (final (run w))) = [].
Proof.
  unfold run, run_in, scrape_products, scrape_site, get_driver. py_unfold. cbn.
  destruct (chrome_starts w 0); cbn; [|done].
  intros [? | ->]; done.
Qed.

(** C8. Whatever a run hands to [json.dump] is the list of the records it
    returns, and there are at most as many records as [scrape_site] found
    items ([found], see [scrape_site_run]).  When the two browsers start, the run returns and saves its
    records once, and every record of the listing stage is saved at its
    position, with its listing fields, also when its detail page shows no
    review panel: an absent panel is not an error. *)
Theorem records_are_bounded_and_kept (w : World) :
  (∀ obj,
     obj ∈ dumped (trace (final (run w))) →
     ∃ products,
       obj = PyList (PyDict <$> products)
       ∧ result (run w) = Ok products
       ∧ length products ≤ length (found w 1)
       ∧ length (found w 1) ≤ length (listing w))
  ∧ (chrome_starts w 0 = true → chrome_starts w 1 = true →
     ∃ products,
       result (run w) = Ok products
       ∧ dumped (trace (final (run w))) = [PyList (PyDict <$> products)]
       ∧ length products = length (omap (parse_one w) (found w 1))
       ∧ ∀ i p,
           omap (parse_one w) (found w 1) !! i = Some p →
           reviews_button (page w i) = None →
           ∃ p', products !! i = Some p'
                 ∧ dict_get p' "title" = dict_get p "title"
                 ∧ dict_get p' "price" = dict_get p "price"
                 ∧ dict_get p' "link" = dict_get p "link").
Proof.
  split.
  - destruct (chrome_starts w 0) eqn:H0; [destruct (chrome_starts w 1) eqn:H1|].
    + destruct (run_records w H0 H1) as (tr & -> & Hd).
      cbn [final result fst snd trace]. rewrite Hd.
      intros obj ->%list_elem_of_singleton.
      exists (records w 1). split; [done|]. split; [done|].
      unfold records. rewrite length_imap.
      split; [apply length_omap_le|apply length_found].
    + destruct (run_without_browser w) as [_ ->]; [by right|].
      by intros obj ?%elem_of_nil.
    + destruct (run_without_browser w) as [_ ->]; [by left|].
      by intros obj ?%elem_of_nil.
  - intros H0 H1. destruct (run_records w H0 H1) as (tr & -> & Hd).
    exists (records w 1). split; [done|]. split; [done|].
    unfold records. rewrite length_imap. split; [done|].
    intros i p Hi _. rewrite list_lookup_imap, Hi. cbn.
    eexists. split; [done|]. by rewrite !visited_keeps.
Qed.

(** The run of [shop] saves the three records it returns; the product at
    position 1, whose detail page does not open, is one of them. *)
Lemma records_are_bounded_and_kept_witness :
  length (listing shop) = 3
  ∧ ∃ products,
      result (run shop) = Ok products
      ∧ dumped (trace (final (run shop))) = [PyList (PyDict <$> products)]
      ∧ length products = 3
      ∧ ∃ p', products !! 1 = Some p'
              ∧ dict_get p' "title" = Some (PyStr "Laptop").
Proof.
  split; [reflexivity|].
  destruct (records_are_bounded_and_kept shop) as [_ Hrun].
  destruct (Hrun eq_refl eq_refl) as (products & Hres & Hdump & Hlen & _).
  exists products. split; [exact Hres|]. split; [exact Hdump|].
  split; [exact Hlen|].
  injection Hres as <-. eexists. split; reflexivity.
Defined.

(** C6, as the code has it.  When the site loads and the search box never
    appears, the timeout is caught inside [scrape_site], which reports it
    and returns the empty list: the run is not aborted.  The search session
    is quit; [scrape_products] goes through its remaining stages with no
    item: it parses no handle, sends no command through its own session,
    reports 0 products found and opens the output file.  When the file
    opens, it hands the empty list to [json.dump], reports 0 products saved
    and returns the empty list; when it does not, the exception of [open]
    is the one the caller receives.  No session is left open. *)
Theorem missing_search_box_ends_the_run_empty (w : World) (title : string)
    (open_error : option exn) :
  chrome_starts w 0 = true → chrome_starts w 1 = true →
  site_title w = Some title → search_box w = None →
  ∃ tr,
    run_in w open_error
    = (match open_error with None => Ok [] | Some e => Raise e end,
       {| started := 2; trace := tr |})
    ∧ Print (ScrapingFailed TimeoutException) ∈ tr
    ∧ Quit 1 ∈ tr ∧ Quit 0 ∈ tr
    ∧ open_sessions [] tr = []
    ∧ sessions_live [] tr = true
    ∧ parse_started tr = []
    ∧ driver_cmds 0 tr = []
    ∧ Print (FoundProducts 0) ∈ tr
    ∧ Print FinalList ∈ tr
    ∧ dumped tr = match open_error with None => [PyList []] | Some _ => [] end
    ∧ (open_error = None → Print (Saved 0) ∈ tr).
Proof.
  intros H0 H1 Ht Hs.
  unfold run_in, scrape_products, scrape_site, click_optional, click_one,
    parse_listing, visit_products, save, get_driver, wait_until, click.
  py_unfold. cbn. rewrite H0. cbn. rewrite H1. cbn. rewrite Ht. cbn.
  destruct (clickable w "a.us-link") as [n|]; cbn;
    [destruct (click_ok w n); cbn|].
  all: rewrite Hs; cbn.
  all: destruct open_error as [e|]; cbn.
  all: eexists; split; [reflexivity|].
  all: repeat split; try reflexivity; try (intros ?; discriminate);
    try intros _; elem_of_trace.
Qed.

Lemma missing_search_box_ends_the_run_empty_witness :
  chrome_starts shop_without_search_box 0 = true
  ∧ chrome_starts shop_without_search_box 1 = true
  ∧ site_title shop_without_search_box = Some "Best Buy"
  ∧ search_box shop_without_search_box = None
  ∧ ∃ tr,
      run_in shop_without_search_box None
      = (Ok [], {| started := 2; trace := tr |})
      ∧ Print (ScrapingFailed TimeoutException) ∈ tr
      ∧ Quit 1 ∈ tr ∧ Quit 0 ∈ tr
      ∧ open_sessions [] tr = []
      ∧ sessions_live [] tr = true
      ∧ parse_started tr = []
      ∧ driver_cmds 0 tr = []
      ∧ Print (FoundProducts 0) ∈ tr
      ∧ Print FinalList ∈ tr
      ∧ dumped tr = [PyList []]
      ∧ Print (Saved 0) ∈ tr.
Proof.
  do 4 (split; [reflexivity|]).
  destruct (missing_search_box_ends_the_run_empty shop_without_search_box
              "Best Buy" None eq_refl eq_refl eq_refl eq_refl)
    as (tr & Hrun & Hfail & Hq1 & Hq0 & Hopen & Hlive & Hparse & Hcmds
        & Hfound & Hfinal & Hdump & Hsaved).
  exists tr. do 11 (split; [assumption|]). exact (Hsaved eq_refl).
Defined.

(** C6, as the specification states it, fails: in [shop_without_search_box]
    the search box never appears, and the caller of [scrape_products]
    receives the empty list as from any other run, not the error, which is
    only printed; the run goes on to report 0 products found, to write the
    empty list and to report 0 products saved.  Where the output file
    cannot be opened, what the caller receives is the exception of [open],
    not the one of the search. *)
Lemma search_failure_is_not_surfaced :
  search_box shop_without_search_box = None
  ∧ result (run shop_without_search_box) = Ok []
  ∧ Print (ScrapingFailed TimeoutException)
    ∈ trace (final (run shop_without_search_box))
  ∧ Print (FoundProducts 0) ∈ trace (final (run shop_without_search_box))
  ∧ Print (Saved 0) ∈ trace (final (run shop_without_search_box))
  ∧ dumped (trace (final (run shop_without_search_box))) = [PyList []]
  ∧ result (run_in shop_without_search_box (Some FileNotFoundError))
    = Raise FileNotFoundError.
Proof.
  split; [reflexivity|]. split; [reflexivity|].
  split; [vm_compute; elem_of_trace|].
  split; [vm_compute; elem_of_trace|].
  split; [vm_compute; elem_of_trace|].
  split; reflexivity.
Qed.

(** C4, as the code has it.  Whenever the search finds an item, some
    command of the run goes through a session that is not open: the search
    session is quit inside [scrape_site], before the handles it located are
    parsed. *)
Theorem listing_is_parsed_after_its_session_quit (w : World) :
  chrome_starts w 0 = true → chrome_starts w 1 = true →
  search_succeeds w = true → listing w ≠ [] →
  sessions_live [] (trace (final (run w))) = false.
Proof.
  intros H0 H1 Hsearch Hitems.
  destruct (run_stages w H0 H1)
    as (mid & evs & -> & Hmid & Hevs & evs' & Hsplit & Hparse).
  cbn [final snd trace sessions_live].
  rewrite sessions_live_app, (stage_events_open _ _ Hmid).
  destruct (sessions_live _ mid); [|done]. cbn [andb sessions_live].
  change (filter (λ d', d' ≠ 1) [1; 0]) with [0].
  apply not_true_is_false. intros Hlive.
  unfold found in Hparse. rewrite Hsearch in Hparse.
  destruct (listing w) as [|n items]; [done|].
  assert (handle 1 n ∈ parse_started evs') as [c Hc]%parse_started_element.
  { rewrite Hparse. apply list_elem_of_here. }
  assert (Element (handle 1 n) c ∈ evs ++
            [Dump "data/products_raw.json" "utf-8" 2 false
               (PyList (PyDict <$> records w 1));
             Print (Saved (length (records w 1))); Quit 0]) as Hin.
  { apply elem_of_app. left. rewrite Hsplit. apply elem_of_app. by left. }
  destruct (sessions_live_element _ _ _ _ Hlive Hin) as [Hopen|Hstart].
  - cbn in Hopen. by apply list_elem_of_singleton in Hopen.
  - apply elem_of_app in Hstart as [Hstart|Hstart].
    + by apply stage_events_no_start in Hstart.
    + by repeat (apply elem_of_cons in Hstart as [?|Hstart]; [done|]);
        apply elem_of_nil in Hstart.
Qed.

Lemma listing_is_parsed_after_its_session_quit_witness :
  chrome_starts shop 0 = true ∧ chrome_starts shop 1 = true
  ∧ search_succeeds shop = true ∧ listing shop ≠ []
  ∧ sessions_live [] (trace (final (run shop))) = false.
Proof.
  do 3 (split; [reflexivity|]). split; [discriminate|].
  apply (listing_is_parsed_after_its_session_quit shop);
    [reflexivity|reflexivity|reflexivity|discriminate].
Defined.

(** The run of [shop], event by event: session 1 is quit at position 18,
    the title of the first handle is read through it at position 20, and
    the detail pages are loaded through session 0. *)
Lemma shop_sessions :
  trace (final (run shop)) !! 18 = Some (Quit 1)
  ∧ trace (final (run shop)) !! 20
    = Some (Element (handle 1 1) (ChildText (CssSelector "h2.product-title")))
  ∧ remove_dups (sessions_used (trace (final (run shop)))) = [1; 0]
  ∧ driver_cmds 0 (trace (final (run shop)))
    !! 0 = Some (Get (PyStr "https://www.bestbuy.com/p/1")).
Proof. repeat split; vm_compute; reflexivity. Qed.



(** ** The claims about the sentiment analyzer *)

Import Sentiment.

(** [_preprocess_text] on a sample: lower case, the three URLs removed (a
    bare [http] or [www] followed by a blank stays), blanks squeezed. *)
Example preprocess_sample :
  _preprocess_text
    "  Great LAPTOP see http://a.b/c?d  and www.x.y http www https x "
  = "great laptop see and http www x".
Proof. reflexivity. Qed.

Lemma label_of_finite (q : Q) :
  ((1 # 20 <= q)%Q → get_sentiment_label (Fin q) = "Positive")
  ∧ ((q <= -1 # 20)%Q → get_sentiment_label (Fin q) = "Negative")
  ∧ ((-1 # 20 < q)%Q ∧ (q < 1 # 20)%Q → get_sentiment_label (Fin q) = "Neutral").
Proof.
  unfold get_sentiment_label, float_le, float_ge.
  destruct (Qle_bool (1 # 20) q) eqn:Hpos;
    destruct (Qle_bool q (-1 # 20)) eqn:Hneg.
  all: try apply Qle_bool_iff in Hpos; try apply Qle_bool_iff in Hneg.
  all: try (apply not_true_iff_false in Hpos; rewrite Qle_bool_iff in Hpos).
  all: try (apply not_true_iff_false in Hneg; rewrite Qle_bool_iff in Hneg).
  all: repeat split; intros; try reflexivity; exfalso; lra.
Qed.

(** Only a non-empty string passes the guard of line 51. *)
Lemma guard_passes text :
  negb (truthy text) || negb (is_str text) = false →
  ∃ s, text = PyStr s ∧ s ≠ "".
Proof.
  destruct text as [| | | |s| |]; cbn; rewrite ?orb_true_r; try done.
  rewrite orb_false_r, negb_involutive.
  destruct (String.eqb_spec s ""); [done|]. intros _. by exists s.
Qed.

(** C9. Given a scorer whose compound score lies between -1 and 1 (the
    contract of NLTK's [polarity_scores]), [analyze_sentiment] returns a
    score between -1 and 1 for every input.  [get_sentiment_label] gives
    ['Positive'] to the scores that are at least 0.05, ['Negative'] to those
    that are at most -0.05 and ['Neutral'] to those strictly in between (and
    to a NaN); every score has exactly one of the three labels. *)
Theorem sentiment_score_and_label (polarity_scores : string → res Scores) :
  (∀ text scores,
     polarity_scores text = Ok scores → in_unit_interval (compound scores)) →
  (∀ text log,
     ∃ score log',
       analyze_sentiment polarity_scores text log = (Ok score, log')
       ∧ in_unit_interval score)
  ∧ (∀ q : Q,
       ((1 # 20 <= q)%Q → get_sentiment_label (Fin q) = "Positive")
       ∧ ((q <= -1 # 20)%Q → get_sentiment_label (Fin q) = "Negative")
       ∧ ((-1 # 20 < q)%Q ∧ (q < 1 # 20)%Q →
          get_sentiment_label (Fin q) = "Neutral"))
  ∧ get_sentiment_label PInf = "Positive"
  ∧ get_sentiment_label NInf = "Negative"
  ∧ get_sentiment_label NaN = "Neutral"
  ∧ (∀ score,
       ∃ label, get_sentiment_label score = label
                ∧ label ∈ ["Positive"; "Negative"; "Neutral"]
                ∧ ∀ label', get_sentiment_label score = label' → label' = label).
Proof.
  intros Hrange. split; [|split; [exact label_of_finite|]].
  - intros text log. unfold analyze_sentiment.
    destruct (negb (truthy text) || negb (is_str text)) eqn:Hguard.
    + exists (Fin 0), log. split; [done|]. cbn. lra.
    + apply guard_passes in Hguard as (str & -> & _).
      unfold try_except, mbind, Py_bind, py_bind, mret, Py_ret, py_ret.
      destruct (polarity_scores (_preprocess_text str)) as [scores|e] eqn:Hs.
      * exists (compound scores), log. split; [done|]. by eapply Hrange.
      * eexists (Fin 0), _. split; [reflexivity|]. cbn. lra.
  - repeat split.
    intros score. eexists. split; [reflexivity|]. split; [|congruence].
    unfold get_sentiment_label.
    destruct (float_ge score (Fin (1 # 20)));
      [|destruct (float_le score (Fin (-1 # 20)))].
    all: repeat first [apply list_elem_of_here | apply list_elem_of_further].
Qed.

Lemma sentiment_score_and_label_witness :
  (∀ text scores,
     mild_scorer text = Ok scores → in_unit_interval (compound scores))
  ∧ (∀ text log,
     ∃ score log',
       analyze_sentiment mild_scorer text log = (Ok score, log')
       ∧ in_unit_interval score)
  ∧ (∀ q : Q,
       ((1 # 20 <= q)%Q → get_sentiment_label (Fin q) = "Positive")
       ∧ ((q <= -1 # 20)%Q → get_sentiment_label (Fin q) = "Negative")
       ∧ ((-1 # 20 < q)%Q ∧ (q < 1 # 20)%Q →
          get_sentiment_label (Fin q) = "Neutral"))
  ∧ get_sentiment_label PInf = "Positive"
  ∧ get_sentiment_label NInf = "Negative"
  ∧ get_sentiment_label NaN = "Neutral"
  ∧ (∀ score,
       ∃ label, get_sentiment_label score = label
                ∧ label ∈ ["Positive"; "Negative"; "Neutral"]
                ∧ ∀ label', get_sentiment_label score = label' → label' = label).
Proof.
  assert (∀ text scores,
            mild_scorer text = Ok scores → in_unit_interval (compound scores))
    as Hrange.
  { intros text scores. unfold mild_scorer.
    destruct (String.eqb text ""); [discriminate|].
    intros [= <-]. cbn. split; discriminate. }
  split; [exact Hrange|].
  exact (sentiment_score_and_label mild_scorer Hrange).
Defined.

(** On the built-in values [analyze_sentiment] returns for every scorer.
    It returns exactly 0.0, and logs nothing, for [None], for the empty
    string and for every value that is not a string; for a non-empty string
    on which the scorer raises it logs a warning and returns 0.0. *)
Lemma analyze_sentiment_on_values
    (polarity_scores : string → res Scores) (text : pyval)
    (log : list log_record) :
  (∃ score log',
     analyze_sentiment polarity_scores text log = (Ok score, log'))
  ∧ (text = PyNone ∨ text = PyStr "" ∨ is_str text = false →
     analyze_sentiment polarity_scores text log = (Ok (Fin 0), log))
  ∧ (∀ s e,
       text = PyStr s → s ≠ "" →
       polarity_scores (_preprocess_text s) = Raise e →
       analyze_sentiment polarity_scores text log
       = (Ok (Fin 0), log ++ [Warning "Error analyzing sentiment" e])).
Proof.
  split; [|split].
  - unfold analyze_sentiment.
    destruct (negb (truthy text) || negb (is_str text)) eqn:Hguard.
    + by eexists _, _.
    + apply guard_passes in Hguard as (str & -> & _).
      unfold try_except, mbind, Py_bind, py_bind, mret, Py_ret, py_ret.
      destruct (polarity_scores (_preprocess_text str)); by eexists _, _.
  - intros [->|[->|Hstr]]; [done|done|].
    unfold analyze_sentiment. rewrite Hstr. cbn.
    by rewrite orb_true_r.
  - intros s e -> Hne Hs. unfold analyze_sentiment. cbn.
    destruct (String.eqb_spec s ""); [done|]. cbn.
    unfold try_except, mbind, Py_bind, py_bind, mret, Py_ret, py_ret.
    by rewrite Hs.
Qed.

(** C10, as the code has it.  [analyze_sentiment] raises exactly when the
    truth test of its argument raises, and then it raises that exception
    and logs nothing: the guard of line 51 is evaluated before the [try].
    On every other argument it returns: exactly 0.0, with nothing logged,
    for [None], for the empty string and for everything that is not a
    string; and 0.0, with one warning, for a non-empty string on which the
    scorer raises. *)
Theorem analyze_sentiment_raises_only_in_its_guard
    (polarity_scores : string → res Scores) (text : object)
    (log : list log_record) :
  (∀ e, text = Instance (Raise e) →
        analyze_sentiment_object polarity_scores text log = (Raise e, log))
  ∧ ((∀ e, text ≠ Instance (Raise e)) →
     ∃ score log',
       analyze_sentiment_object polarity_scores text log = (Ok score, log'))
  ∧ (text = Builtin PyNone ∨ text = Builtin (PyStr "")
     ∨ (∃ v, text = Builtin v ∧ is_str v = false)
     ∨ (∃ b, text = Instance (Ok b)) →
     analyze_sentiment_object polarity_scores text log = (Ok (Fin 0), log))
  ∧ (∀ s e,
       text = Builtin (PyStr s) → s ≠ "" →
       polarity_scores (_preprocess_text s) = Raise e →
       analyze_sentiment_object polarity_scores text log
       = (Ok (Fin 0), log ++ [Warning "Error analyzing sentiment" e])).
Proof.
  split; [|split; [|split]].
  - by intros e ->.
  - intros Hok. destruct text as [v|[b|e]].
    + apply (analyze_sentiment_on_values polarity_scores v log).
    + by eexists _, _.
    + by destruct (Hok e).
  - intros [-> | [-> | [(v & -> & Hstr) | (b & ->)]]]; [done|done| |done].
    destruct (analyze_sentiment_on_values polarity_scores v log)
      as (_ & Hzero & _).
    apply Hzero. by right; right.
  - intros s e -> Hne Hs.
    destruct (analyze_sentiment_on_values polarity_scores (PyStr s) log)
      as (_ & _ & Hwarn).
    exact (Hwarn s e eq_refl Hne Hs).
Qed.

(** C10, as the specification states it, fails: [pandas.NA] and a NumPy
    array of several elements are not strings, their truth tests raise
    [TypeError] and [ValueError], and [analyze_sentiment] raises these
    exceptions instead of returning 0.0. *)
Lemma truth_test_failure_is_raised :
  analyze_sentiment_object mild_scorer (Instance (Raise TypeError)) []
  = (Raise TypeError, [])
  ∧ analyze_sentiment_object mild_scorer (Instance (Raise ValueError)) []
    = (Raise ValueError, []).
Proof. split; reflexivity. Qed.

(** * Further properties of the scraper *)

(** X1. Every run of [scrape_products] leaves no browser session open,
    whether it returns or raises: each session it starts is quit, also when
    the second browser cannot start. *)
Theorem every_run_releases_its_sessions (w : World) :
  open_sessions [] (trace (final (run w))) = [].
Proof.
  destruct (chrome_starts w 0) eqn:H0; [destruct (chrome_starts w 1) eqn:H1|].
  - destruct (run_stages w H0 H1) as (mid & evs & -> & Hmid & Hevs & _).
    cbn [final snd trace open_sessions].
    rewrite open_sessions_app, (stage_events_open _ _ Hmid).
    cbn [open_sessions].
    rewrite open_sessions_app, (stage_events_open _ _ Hevs).
    reflexivity.
  - unfold run, run_in, scrape_products, scrape_site, get_driver. py_unfold. cbn.
    rewrite H0. cbn. by rewrite H1.
  - unfold run, run_in, scrape_products, scrape_site, get_driver. py_unfold. cbn.
    by rewrite H0.
Qed.

(** X2. [scrape_site] contains its failures.  When its browser cannot start
    it raises what the start raised, having done nothing.  Otherwise it
    returns: the handles of
    the result list when the page loads, the search box is found and takes
    the keys and a result appears, and the empty list in every other case;
    its session is started first and quit last, whatever happened in
    between. *)
Theorem scrape_site_contains_its_failures (w : World)
    (url term : string) (sels : list string) (sel : string) (s : St) :
  (chrome_starts w (started s) = false →
   scrape_site w url term sels sel s
   = (Raise (start_error w (started s)), s))
  ∧ (chrome_starts w (started s) = true →
     ∃ items mid,
       scrape_site w url term sels sel s
       = (Ok items,
          {| started := S (started s);
             trace := trace s ++ Start (started s) :: mid
                      ++ [Quit (started s)] |})
       ∧ forallb stage_event mid = true
       ∧ (is_Some (site_title w)
          ∧ (∃ box, search_box w = Some box ∧ accepts_keys w box = true)
          ∧ listing_appears w = true →
          items = handle (started s) <$> listing w)
       ∧ (site_title w = None
          ∨ search_box w = None
          ∨ (∃ box, search_box w = Some box ∧ accepts_keys w box = false)
          ∨ listing_appears w = false →
          items = [])).
Proof.
  split.
  - intros Hstart. unfold scrape_site, get_driver. py_unfold. by rewrite Hstart.
  - intros Hstart.
    destruct (scrape_site_run w url term sels sel s Hstart) as (mid & -> & Hmid).
    exists (found w (started s)), mid. split; [done|]. split; [done|].
    unfold found, search_succeeds. split.
    + intros ([title ->] & (box & -> & ->) & ->). by cbn.
    + intros [-> | [-> | [(box & -> & ->) | ->]]]; cbn;
        by rewrite ?andb_false_r.
Qed.

Lemma scrape_site_contains_its_failures_witness :
  chrome_starts shop_without_search_box 1 = true
  ∧ search_box shop_without_search_box = None
  ∧ ∃ mid,
      scrape_site shop_without_search_box "https://www.bestbuy.com/" "laptop"
        ["a.us-link"] "li.product-list-item"
        {| started := 1; trace := [Start 0] |}
      = (Ok [],
         {| started := 2; trace := [Start 0] ++ Start 1 :: mid ++ [Quit 1] |})
      ∧ forallb stage_event mid = true.
Proof.
  split; [reflexivity|]. split; [reflexivity|].
  destruct (scrape_site_contains_its_failures shop_without_search_box
              "https://www.bestbuy.com/" "laptop" ["a.us-link"]
              "li.product-list-item" {| started := 1; trace := [Start 0] |})
    as [_ Hrun].
  destruct (Hrun eq_refl) as (items & mid & Hsite & Hmid & _ & Hempty).
  exists mid. split; [|exact Hmid].
  rewrite Hsite. by rewrite (Hempty (or_intror (or_introl eq_refl))).
Defined.

(** X3. The optional clicks are best effort: what they find, and whether
    the click succeeds, changes neither what a run returns or raises nor
    what it hands to [json.dump]. *)
Theorem optional_clicks_do_not_matter (w : World)
    (c : string → option nat) (k : nat → bool) :
  result (run (with_clicks w c k)) = result (run w)
  ∧ dumped (trace (final (run (with_clicks w c k))))
    = dumped (trace (final (run w))).
Proof.
  destruct (chrome_starts w 0) eqn:H0; [destruct (chrome_starts w 1) eqn:H1|].
  - destruct (run_records w H0 H1) as (tr & Hrun & Hd).
    destruct (run_records (with_clicks w c k) H0 H1) as (tr' & Hrun' & Hd').
    rewrite Hrun, Hrun'. cbn [final result fst snd trace].
    by rewrite Hd, Hd'.
  - destruct (run_without_browser w) as [-> ->]; [by right|].
    by destruct (run_without_browser (with_clicks w c k)) as [-> ->];
      [right|].
  - destruct (run_without_browser w) as [-> ->]; [by left|].
    by destruct (run_without_browser (with_clicks w c k)) as [-> ->];
      [left|].
Qed.

(** An iteration of the second loop sends no command of the review
    extraction, and leaves its product with both placeholders or as it
    was. *)
Lemma visit_extracts_nothing w driver (pre : list dict) p post title s :
  dict_get p "title" = Some title →
  ∃ evs,
    visit w driver (length pre) (pre ++ p :: post) s
    = (Ok (pre ++ visited w (length pre) p :: post), after s evs)
    ∧ existsb review_event evs = false.
Proof.
  intros Htitle. unfold visit. rewrite list_lookup_middle by done.
  unfold getitem, wait_until, click, reviews_container, visited, detail_opens.
  py_unfold. rewrite Htitle. cbn.
  destruct (dict_get p "link") as [link|]; cbn;
    [destruct link; cbn;
     try (destruct (opens (page w (length pre))); cbn;
          [destruct (reviews_button (page w (length pre))) as [n|]; cbn;
           [destruct (button_clicks (page w (length pre))); cbn;
            [destruct (reviews_heading (page w (length pre))); cbn|]|]|])|].
  all: rewrite ?setitem_middle.
  all: eexists; split; [trace_eq|done].
Qed.

Lemma visit_loop_extracts_nothing w driver (pre products : list dict) s :
  Forall listed products →
  ∃ evs,
    for_in (seq (length pre) (length products)) (visit w driver)
      (pre ++ products) s
    = (Ok (pre ++ imap (λ i, visited w (length pre + i)) products), after s evs)
    ∧ existsb review_event evs = false.
Proof.
  intros Hl. revert pre s.
  induction Hl as [|p products [title Hp] _ IH]; intros pre s.
  - exists []. cbn. by rewrite after_nil.
  - cbn [length seq]. rewrite for_in_cons.
    destruct (visit_extracts_nothing w driver pre p products title s Hp)
      as (evs1 & -> & Hr1).
    destruct (IH (pre ++ [visited w (length pre) p]) (after s evs1))
      as (evs2 & Hrun & Hr2).
    rewrite length_app in Hrun. cbn [length] in Hrun.
    rewrite Nat.add_1_r, <- app_assoc in Hrun. cbn [app] in Hrun.
    rewrite Hrun. exists (evs1 ++ evs2). rewrite after_after.
    split; [|by rewrite existsb_app, Hr1, Hr2].
    do 2 f_equal. rewrite <- app_assoc. cbn [app]. f_equal.
    rewrite imap_cons. f_equal.
    + by rewrite Nat.add_0_r.
    + apply imap_ext. intros i x _. cbn. f_equal. lia.
Qed.

Lemma dict_get_set_eq d k v : dict_get (dict_set d k v) k = Some v.
Proof.
  induction d as [|[k' v'] d IH]; cbn.
  - by rewrite String.eqb_refl.
  - destruct (String.eqb_spec k' k) as [->|Hne]; cbn.
    + by rewrite String.eqb_refl.
    + by destruct (String.eqb_spec k' k).
Qed.

(** X4. The second loop never extracts a review.  For every browser and
    every list of listed products it returns, sends no lookup below any
    element and never reports a number of reviews, because the name
    [reviews_container] is not assigned.  A product whose link is a string
    and whose detail page opens ends with the rating and the review count
    ["N/A"], also when the review button was clicked and the heading of the
    reviews appeared; every other product is left as it was; no product
    gains a field for its reviews. *)
Theorem reviews_are_never_extracted (w : World) (driver : session)
    (products : list dict) (s : St) :
  Forall listed products →
  ∃ products' evs,
    visit_products w driver products s = (Ok products', after s evs)
    ∧ existsb review_event evs = false
    ∧ ∀ i p,
        products !! i = Some p →
        ∃ p', products' !! i = Some p'
              ∧ dict_get p' "reviews" = dict_get p "reviews"
              ∧ ((∃ url, dict_get p "link" = Some (PyStr url))
                 ∧ opens (page w i) = true →
                 dict_get p' "rating" = Some (PyStr "N/A")
                 ∧ dict_get p' "review_count" = Some (PyStr "N/A"))
              ∧ ((∀ url, dict_get p "link" ≠ Some (PyStr url))
                 ∨ opens (page w i) = false →
                 p' = p).
Proof.
  intros Hl.
  destruct (visit_loop_extracts_nothing w driver [] products s Hl)
    as (evs & Hrun & Hr).
  exists (imap (visited w) products), evs.
  split; [exact Hrun|]. split; [exact Hr|].
  intros i p Hi. exists (visited w i p).
  rewrite list_lookup_imap, Hi. split; [done|].
  split; [by apply visited_keeps|].
  unfold visited, detail_opens. split.
  - intros [[url ->] ->].
    by rewrite dict_get_set_eq, dict_get_set_ne, dict_get_set_eq.
  - intros [Hlink | ->].
    + destruct (dict_get p "link") as [[| | | |url| |]|]; try done.
      by destruct (Hlink url).
    + by destruct (dict_get p "link") as [[| | | |url| |]|].
Qed.

Lemma reviews_are_never_extracted_witness :
  Forall listed [[("title", PyStr "Laptop"); ("price", PyStr "$999.99");
                  ("link", PyStr "https://www.bestbuy.com/p/1")]]
  ∧ opens (page shop 0) = true
  ∧ reviews_button (page shop 0) = Some 200
  ∧ ∃ products' evs,
      visit_products shop 0
        [[("title", PyStr "Laptop"); ("price", PyStr "$999.99");
          ("link", PyStr "https://www.bestbuy.com/p/1")]]
        {| started := 2; trace := [] |}
      = (Ok products', after {| started := 2; trace := [] |} evs)
      ∧ existsb review_event evs = false
      ∧ ∃ p', products' !! 0 = Some p'
              ∧ dict_get p' "rating" = Some (PyStr "N/A")
              ∧ dict_get p' "reviews" = None.
Proof.
  assert (Forall listed
            [[("title", PyStr "Laptop"); ("price", PyStr "$999.99");
              ("link", PyStr "https://www.bestbuy.com/p/1")]]) as Hl.
  { repeat constructor. by eexists. }
  split; [exact Hl|]. split; [reflexivity|]. split; [reflexivity|].
  destruct (reviews_are_never_extracted shop 0 _
              {| started := 2; trace := [] |} Hl)
    as (products' & evs & Hrun & Hr & Hp).
  exists products', evs. split; [exact Hrun|]. split; [exact Hr|].
  destruct (Hp 0 _ eq_refl) as (p' & Hp' & Hrev & Hna & _).
  exists p'. split; [exact Hp'|]. split; [|exact Hrev].
  apply Hna. split; [by eexists|reflexivity].
Defined.

(** X5. When a browser cannot start, [scrape_products] raises the
    exception of the failed start, whichever it is, and does nothing else:
    with no first browser there is no event at all; with a first browser
    but no second one, the first session is started and quit, nothing is
    searched or parsed, and no file is opened or written. *)
Theorem browser_failure_ends_the_run (w : World) (open_error : option exn) :
  (chrome_starts w 0 = false →
   run_in w open_error
   = (Raise (start_error w 0), {| started := 0; trace := [] |}))
  ∧ (chrome_starts w 0 = true → chrome_starts w 1 = false →
     run_in w open_error
     = (Raise (start_error w 1),
        {| started := 1; trace := [Start 0; Quit 0] |})).
Proof.
  split; [|apply second_browser_failure].
  intros H0. unfold run_in, scrape_products, get_driver. py_unfold. cbn.
  by rewrite H0.
Qed.

Lemma browser_failure_ends_the_run_witness :
  chrome_starts shop_without_driver 0 = false
  ∧ chrome_starts one_browser 0 = true ∧ chrome_starts one_browser 1 = false
  ∧ run shop_without_driver
    = (Raise NoSuchDriverException, {| started := 0; trace := [] |})
  ∧ run one_browser
    = (Raise SessionNotCreatedException,
       {| started := 1; trace := [Start 0; Quit 0] |}).
Proof.
  split; [reflexivity|]. split; [reflexivity|]. split; [reflexivity|].
  split.
  - apply (browser_failure_ends_the_run shop_without_driver None).
    reflexivity.
  - apply (browser_failure_ends_the_run one_browser None); reflexivity.
Defined.

(** With lookups refused below the listing items, no item gives a
    record. *)
Lemma stale_records w d : refuses_stale_lookups w → records w d = [].
Proof.
  intros Hstale. unfold records.
  assert (omap (parse_one w) (found w d) = []) as ->; [|done].
  unfold found. destruct (search_succeeds w); [|done].
  assert (∀ items,
            (∀ n, n ∈ items →
                  child_text w n (CssSelector "h2.product-title") = None) →
            omap (parse_one w) (handle d <$> items) = []) as Hnone.
  { induction items as [|n items IH]; intros Hitems; [done|].
    cbn [fmap list_fmap].
    change (omap (parse_one w) (handle d n :: (handle d <$> items)))
      with (match parse_one w (handle d n) with
            | Some p => p :: omap (parse_one w) (handle d <$> items)
            | None => omap (parse_one w) (handle d <$> items)
            end).
    assert (parse_one w (handle d n) = None) as ->.
    { unfold parse_one. cbn. by rewrite Hitems by apply list_elem_of_here. }
    apply IH. intros m Hm. by apply Hitems, list_elem_of_further. }
  apply Hnone. intros n Hn.
  by destruct (Hstale n (CssSelector "h2.product-title") Hn).
Qed.

(** X19. What the quit of the search session costs.  In a browser that
    refuses the lookups below the listing items, as Selenium does for the
    handles of a session that was quit, every run whose two browsers start
    parses every handle found and gets no record from any: it returns the
    empty list, reports 0 products saved and hands the empty list to
    [json.dump] (or raises what [open] raised). *)
Theorem quit_session_leaves_no_record (w : World) (open_error : option exn) :
  refuses_stale_lookups w →
  chrome_starts w 0 = true → chrome_starts w 1 = true →
  result (run_in w open_error)
  = match open_error with None => Ok [] | Some e => Raise e end
  ∧ dumped (trace (final (run_in w open_error)))
    = match open_error with None => [PyList []] | Some _ => [] end
  ∧ (∀ item, item ∈ found w 1 →
             item ∈ parse_started (trace (final (run_in w open_error))))
  ∧ (open_error = None →
     Print (Saved 0) ∈ trace (final (run_in w open_error))).
Proof.
  intros Hstale H0 H1.
  destruct (run_in_records w open_error H0 H1)
    as (tr & -> & Hdump & _ & Hparse & Hsaved).
  rewrite (stale_records w 1 Hstale) in *.
  cbn [result final fst snd trace]. done.
Qed.

Lemma quit_session_leaves_no_record_witness :
  refuses_stale_lookups (stale_shop [1; 2; 3])
  ∧ found (stale_shop [1; 2; 3]) 1 = [handle 1 1; handle 1 2; handle 1 3]
  ∧ result (run (stale_shop [1; 2; 3])) = Ok []
  ∧ dumped (trace (final (run (stale_shop [1; 2; 3])))) = [PyList []].
Proof.
  assert (refuses_stale_lookups (stale_shop [1; 2; 3])) as Hstale by done.
  split; [exact Hstale|]. split; [reflexivity|].
  destruct (quit_session_leaves_no_record (stale_shop [1; 2; 3]) None Hstale
              eq_refl eq_refl) as (Hres & Hdump & _).
  split; [exact Hres|exact Hdump].
Defined.

(** X20. When the output file cannot be opened, a run whose two browsers
    start goes through every stage, raises the exception of [open] and
    gives nothing to [json.dump]; its two sessions are quit all the same. *)
Theorem unwritable_file_ends_the_run (w : World) (e : exn) :
  chrome_starts w 0 = true → chrome_starts w 1 = true →
  result (run_in w (Some e)) = Raise e
  ∧ dumped (trace (final (run_in w (Some e)))) = []
  ∧ open_sessions [] (trace (final (run_in w (Some e)))) = []
  ∧ (∀ item, item ∈ found w 1 →
             item ∈ parse_started (trace (final (run_in w (Some e))))).
Proof.
  intros H0 H1.
  destruct (run_in_records w (Some e) H0 H1)
    as (tr & -> & Hdump & Hopen & Hparse & _).
  done.
Qed.

Lemma unwritable_file_ends_the_run_witness :
  chrome_starts shop_without_search_box 0 = true
  ∧ chrome_starts shop_without_search_box 1 = true
  ∧ result (run_in shop_without_search_box (Some FileNotFoundError))
    = Raise FileNotFoundError
  ∧ dumped (trace (final (run_in shop_without_search_box
                            (Some FileNotFoundError)))) = [].
Proof.
  split; [reflexivity|]. split; [reflexivity|].
  destruct (unwritable_file_ends_the_run shop_without_search_box
              FileNotFoundError eq_refl eq_refl) as (Hres & Hdump & _).
  split; [exact Hres|exact Hdump].
Defined.

(** * Further properties of the sentiment analyzer *)


(** On the built-in values both functions return, and the score of
    [analyze_sentiment] is the compound score of the detailed result. *)
Lemma detailed_agrees_on_values (polarity_scores : string → res Scores)
    (text : pyval) (log : list log_record) :
  ∃ scores log1 log2,
    analyze_sentiment_detailed polarity_scores text log = (Ok scores, log1)
    ∧ analyze_sentiment polarity_scores text log = (Ok (compound scores), log2)
    ∧ length log1 = length log2
    ∧ (∀ s result,
         text = PyStr s → s ≠ "" →
         polarity_scores (_preprocess_text s) = Ok result →
         scores = result ∧ log1 = log)
    ∧ (truthy text = false ∨ is_str text = false
       ∨ (∃ s e, text = PyStr s
                 ∧ polarity_scores (_preprocess_text s) = Raise e) →
       scores = zero_scores).
Proof.
  unfold analyze_sentiment_detailed, analyze_sentiment.
  destruct (negb (truthy text) || negb (is_str text)) eqn:Hguard.
  - exists zero_scores, log, log.
    split; [done|]. split; [done|]. split; [done|]. split; [|done].
    intros s result -> Hne _. cbn in Hguard.
    by destruct (String.eqb_spec s "").
  - apply guard_passes in Hguard as (str & -> & Hne).
    unfold try_except, mbind, Py_bind, py_bind, mret, Py_ret, py_ret, warning,
      modify.
    destruct (polarity_scores (_preprocess_text str)) as [scores|e] eqn:Hs.
    + exists scores, log, log.
      split; [done|]. split; [done|]. split; [done|]. split.
      * intros s result [= <-] _ Hres. split; congruence.
      * intros [Ht | [Hstr | (s0 & e0 & [= <-] & He)]]; [| |congruence].
        -- cbn in Ht. by destruct (String.eqb_spec str "").
        -- done.
    + eexists zero_scores, _, _.
      split; [reflexivity|]. split; [reflexivity|].
      split; [by rewrite !length_app|]. split; [|done].
      intros s result [= <-] _ Hres. congruence.
Qed.

(** X6. [analyze_sentiment_detailed] and [analyze_sentiment] agree, on
    every argument and for every scorer.  When the truth test of the
    argument raises, both raise that exception.  Otherwise both return, and
    the score of the second is the compound score of the first; the
    detailed result is the dictionary of the scorer, untouched, when the
    text is a non-empty string that the scorer accepts, and the all-zero
    dictionary in every other case. *)
Theorem detailed_agrees_with_simple (polarity_scores : string → res Scores)
    (text : object) (log : list log_record) :
  (∀ e, text = Instance (Raise e) →
        analyze_sentiment_detailed_object polarity_scores text log
        = (Raise e, log)
        ∧ analyze_sentiment_object polarity_scores text log = (Raise e, log))
  ∧ ((∀ e, text ≠ Instance (Raise e)) →
     ∃ scores log1 log2,
       analyze_sentiment_detailed_object polarity_scores text log
       = (Ok scores, log1)
       ∧ analyze_sentiment_object polarity_scores text log
         = (Ok (compound scores), log2)
       ∧ length log1 = length log2
       ∧ (∀ s result,
            text = Builtin (PyStr s) → s ≠ "" →
            polarity_scores (_preprocess_text s) = Ok result →
            scores = result ∧ log1 = log)
       ∧ ((∃ v, text = Builtin v ∧ (truthy v = false ∨ is_str v = false))
          ∨ (∃ b, text = Instance (Ok b))
          ∨ (∃ s e, text = Builtin (PyStr s)
                    ∧ polarity_scores (_preprocess_text s) = Raise e) →
          scores = zero_scores)).
Proof.
  split.
  - by intros e ->.
  - intros Hok. destruct text as [v|[b|e]]; [| |by destruct (Hok e)].
    + destruct (detailed_agrees_on_values polarity_scores v log)
        as (scores & log1 & log2 & Hd & Hs & Hlen & Hres & Hzero).
      exists scores, log1, log2.
      split; [exact Hd|]. split; [exact Hs|]. split; [exact Hlen|]. split.
      * intros s result [= ->]. by apply Hres.
      * intros [(v' & [= <-] & Hv) | [(b & [=]) | (s & e & [= ->] & He)]].
        -- apply Hzero. destruct Hv; [by left|by right; left].
        -- apply Hzero. right; right. by exists s, e.
    + exists zero_scores, log, log. repeat split; done.
Qed.



Lemma label_cases (q : Q) :
  ((1 # 20 <= q)%Q ∧ get_sentiment_label (Fin q) = "Positive")
  ∨ ((q <= -1 # 20)%Q ∧ get_sentiment_label (Fin q) = "Negative")
  ∨ ((-1 # 20 < q)%Q ∧ (q < 1 # 20)%Q
     ∧ get_sentiment_label (Fin q) = "Neutral").
Proof.
  destruct (label_of_finite q) as (Hpos & Hneg & Hneu).
  destruct (Qlt_le_dec q (1 # 20)) as [Hlt|Hge]; [|by left; auto].
  destruct (Qlt_le_dec (-1 # 20) q) as [Hgt|Hle]; [|by right; left; auto].
  right. right. auto.
Qed.

(** X8. [get_sentiment_label] is monotone: a higher score never gets a
    lower label.  If a score is labelled ['Positive'], so is every greater
    score; if a score is labelled ['Negative'], so is every smaller one. *)
Theorem sentiment_label_is_monotone (q1 q2 : Q) :
  (q1 <= q2)%Q →
  (get_sentiment_label (Fin q1) = "Positive" →
   get_sentiment_label (Fin q2) = "Positive")
  ∧ (get_sentiment_label (Fin q2) = "Negative" →
     get_sentiment_label (Fin q1) = "Negative")
  ∧ (get_sentiment_label (Fin q1) = "Neutral" →
     get_sentiment_label (Fin q2) ≠ "Negative").
Proof.
  intros Hle.
  destruct (label_cases q1) as [[H1 L1]|[[H1 L1]|(H1 & H1' & L1)]];
    destruct (label_cases q2) as [[H2 L2]|[[H2 L2]|(H2 & H2' & L2)]];
    rewrite L1, L2; repeat split; intros; try done; exfalso; lra.
Qed.

Lemma sentiment_label_is_monotone_witness :
  (3 # 100 <= 7 # 10)%Q
  ∧ (get_sentiment_label (Fin (3 # 100)) = "Positive" →
     get_sentiment_label (Fin (7 # 10)) = "Positive")
  ∧ (get_sentiment_label (Fin (7 # 10)) = "Negative" →
     get_sentiment_label (Fin (3 # 100)) = "Negative")
  ∧ (get_sentiment_label (Fin (3 # 100)) = "Neutral" →
     get_sentiment_label (Fin (7 # 10)) ≠ "Negative").
Proof.
  assert (3 # 100 <= 7 # 10)%Q as Hle by (unfold Qle; cbn; lia).
  split; [exact Hle|].
  exact (sentiment_label_is_monotone (3 # 100) (7 # 10) Hle).
Defined.

(** X9. The two thresholds of [get_sentiment_label] mirror each other:
    the opposite of a score is ['Positive'] exactly when the score is
    ['Negative'], and ['Neutral'] exactly when the score is. *)
Theorem sentiment_label_is_symmetric (q : Q) :
  (get_sentiment_label (Fin (- q)) = "Positive"
   ↔ get_sentiment_label (Fin q) = "Negative")
  ∧ (get_sentiment_label (Fin (- q)) = "Negative"
     ↔ get_sentiment_label (Fin q) = "Positive")
  ∧ (get_sentiment_label (Fin (- q)) = "Neutral"
     ↔ get_sentiment_label (Fin q) = "Neutral").
Proof.
  destruct (label_cases q) as [[H1 L1]|[[H1 L1]|(H1 & H1' & L1)]];
    destruct (label_cases (- q)) as [[H2 L2]|[[H2 L2]|(H2 & H2' & L2)]];
    rewrite L1, L2; repeat split; intros; try done; exfalso; lra.
Qed.

(** X10. A text that is not scored is labelled ['Neutral']: for [None],
    the empty string, an object that is not a string, and a text on which
    the scorer raises, the score [analyze_sentiment] returns has the label
    ['Neutral']. *)
Theorem unscored_text_is_neutral (polarity_scores : string → res Scores)
    (text : pyval) (log log' : list log_record) (score : pyfloat) :
  analyze_sentiment polarity_scores text log = (Ok score, log') →
  truthy text = false ∨ is_str text = false
  ∨ (∃ s e, text = PyStr s ∧ polarity_scores (_preprocess_text s) = Raise e) →
  get_sentiment_label score = "Neutral".
Proof.
  unfold analyze_sentiment. intros Hrun Hcase.
  destruct (negb (truthy text) || negb (is_str text)) eqn:Hguard.
  - by injection Hrun as <- _.
  - destruct (guard_passes _ Hguard) as (str & -> & Hne).
    destruct Hcase as [Ht | [Hs | (s0 & e & [= <-] & He)]].
    + cbn in Ht. by destruct (String.eqb_spec str "").
    + done.
    + unfold try_except, mbind, Py_bind, py_bind, mret, Py_ret, py_ret in Hrun.
      rewrite He in Hrun. by injection Hrun as <- _.
Qed.

Lemma unscored_text_is_neutral_witness :
  analyze_sentiment mild_scorer (PyInt 5) []
  = (Ok (Fin 0), [])
  ∧ is_str (PyInt 5) = false
  ∧ get_sentiment_label (Fin 0) = "Neutral".
Proof.
  split; [reflexivity|]. split; [reflexivity|].
  apply (unscored_text_is_neutral mild_scorer (PyInt 5) [] [] (Fin 0));
    [reflexivity|right; left; reflexivity].
Defined.

(** ** [_preprocess_text] *)

Lemma append_cons c (a b : string) :
  String.append (String c a) b = String c (String.append a b).
Proof. reflexivity. Qed.

Lemma append_nil_r (a : string) : String.append a "" = a.
Proof. induction a as [|c a IH]; [done|]. by rewrite append_cons, IH. Qed.

Lemma append_assoc (a b c : string) :
  String.append (String.append a b) c = String.append a (String.append b c).
Proof.
  induction a as [|x a IH]; [done|]. by rewrite !append_cons, IH.
Qed.

Lemma all_chars_app P (a b : string) :
  all_chars P (String.append a b) = all_chars P a && all_chars P b.
Proof.
  induction a as [|c a IH]; [done|].
  rewrite append_cons. cbn. by rewrite IH, andb_assoc.
Qed.

Lemma remove_urls_false c rest :
  remove_urls false (String c rest)
  = if url_starts (String c rest) then remove_urls true rest
    else String c (remove_urls false rest).
Proof. reflexivity. Qed.

Lemma remove_urls_true c rest :
  remove_urls true (String c rest)
  = if is_space c then String c (remove_urls false rest)
    else remove_urls true rest.
Proof. reflexivity. Qed.

Lemma no_url_cons c rest :
  no_url (String c rest) = negb (url_starts (String c rest)) && no_url rest.
Proof. reflexivity. Qed.

Lemma sw_cons a p c s :
  starts_with_then_nonspace (String a p) (String c s)
  = Ascii.eqb a c && starts_with_then_nonspace p s.
Proof. reflexivity. Qed.

Lemma sw_blank p v :
  all_chars (λ c, negb (is_space c)) p = true → blank_head v = true →
  starts_with_then_nonspace p v = false.
Proof.
  intros Hp Hv. destruct p as [|a p], v as [|c v]; cbn in *; try done.
  - by rewrite Hv.
  - destruct (Ascii.eqb_spec a c) as [->|]; [|done].
    by rewrite Hv in Hp.
Qed.

Lemma sw_local p u v :
  all_chars (λ c, negb (is_space c)) p = true → blank_head v = true →
  starts_with_then_nonspace p (String.append u v)
  = starts_with_then_nonspace p u.
Proof.
  revert u. induction p as [|a p IH]; intros u Hp Hv.
  - destruct u as [|c u]; [|done]. cbn [String.append].
    by rewrite sw_blank.
  - destruct u as [|c u].
    + cbn [String.append]. by rewrite sw_blank.
    + rewrite append_cons. cbn. cbn in Hp.
      apply andb_true_iff in Hp as [_ Hp]. by rewrite IH.
Qed.

Lemma url_starts_local u v :
  blank_head v = true → url_starts (String.append u v) = url_starts u.
Proof. intros Hv. unfold url_starts. by rewrite !sw_local. Qed.

Lemma url_starts_blank v : blank_head v = true → url_starts v = false.
Proof. intros Hv. unfold url_starts. by rewrite !sw_blank. Qed.

Lemma no_url_app u v :
  blank_head v = true →
  no_url (String.append u v) = no_url u && no_url v.
Proof.
  intros Hv. induction u as [|c u IH]; [done|].
  rewrite append_cons, !no_url_cons, <- append_cons, url_starts_local by done.
  by rewrite IH, andb_assoc.
Qed.

Lemma remove_urls_true_blank s : blank_head (remove_urls true s) = true.
Proof.
  induction s as [|c s IH]; [done|]. rewrite remove_urls_true.
  by destruct (is_space c) eqn:Hc.
Qed.

(** What is left of a text starts with a pattern only if the text did. *)
Lemma sw_remove p s :
  all_chars (λ c, negb (is_space c)) p = true →
  starts_with_then_nonspace p (remove_urls false s) = true →
  starts_with_then_nonspace p s = true.
Proof.
  revert s. induction p as [|a p IH]; intros [|c s] Hp; try done.
  - rewrite remove_urls_false. destruct (url_starts (String c s)); [|done].
    by rewrite sw_blank by (done || apply remove_urls_true_blank).
  - rewrite remove_urls_false. destruct (url_starts (String c s)).
    + by rewrite sw_blank by (done || apply remove_urls_true_blank).
    + cbn. cbn in Hp. apply andb_true_iff in Hp as [_ Hp].
      intros [-> Hrest]%andb_true_iff. by rewrite IH.
Qed.

Lemma url_starts_remove c rest :
  url_starts (String c (remove_urls false rest)) = true →
  url_starts (String c rest) = true.
Proof.
  unfold url_starts. rewrite !sw_cons.
  intros [[H|H]%orb_true_iff|H]%orb_true_iff;
    apply andb_true_iff in H as [-> H]; apply sw_remove in H; try done;
    rewrite H; cbn; by rewrite ?orb_true_r.
Qed.

Lemma no_url_remove s :
  no_url (remove_urls false s) = true ∧ no_url (remove_urls true s) = true.
Proof.
  induction s as [|c s [IHf IHt]]; [done|].
  rewrite remove_urls_false, remove_urls_true. split.
  - destruct (url_starts (String c s)) eqn:Hurl; [done|].
    rewrite no_url_cons, IHf, andb_true_r.
    apply negb_true_iff, not_true_is_false. intros H.
    apply url_starts_remove in H. congruence.
  - destruct (is_space c) eqn:Hc; [|done].
    by rewrite no_url_cons, IHf, url_starts_blank.
Qed.

Lemma no_url_fixed s : no_url s = true → remove_urls false s = s.
Proof.
  induction s as [|c s IH]; [done|].
  rewrite no_url_cons, remove_urls_false.
  intros [Hurl Hs]%andb_true_iff. apply negb_true_iff in Hurl.
  by rewrite Hurl, IH.
Qed.

Lemma all_chars_remove P b s :
  all_chars P s = true → all_chars P (remove_urls b s) = true.
Proof.
  revert b. induction s as [|c s IH]; intros b; [by destruct b|].
  cbn [all_chars]. intros [Hc Hs]%andb_true_iff.
  destruct b; [rewrite remove_urls_true|rewrite remove_urls_false].
  - destruct (is_space c); [cbn; by rewrite Hc, IH|by apply IH].
  - destruct (url_starts _); [by apply IH|cbn; by rewrite Hc, IH].
Qed.

Lemma lower_char_not_upper c : is_upper (lower_char c) = false.
Proof.
  destruct c as [[] [] [] [] [] [] [] []]; reflexivity.
Qed.

Lemma lower_not_upper s : all_chars (λ c, negb (is_upper c)) (lower s) = true.
Proof.
  induction s as [|c s IH]; [done|]. cbn.
  by rewrite lower_char_not_upper, IH.
Qed.

Lemma lower_fixed s :
  all_chars (λ c, negb (is_upper c)) s = true → lower s = s.
Proof.
  induction s as [|c s IH]; [done|]. cbn.
  intros [Hc Hs]%andb_true_iff. apply negb_true_iff in Hc.
  rewrite IH by done. f_equal. unfold lower_char, is_upper in *.
  by rewrite Hc.
Qed.

Lemma concat_cons (w : string) (ws : list string) :
  String.concat " " (w :: ws)
  = String.append w (match ws with
                     | [] => ""
                     | _ => String.append " " (String.concat " " ws)
                     end).
Proof. destruct ws; cbn [String.concat]; [by rewrite append_nil_r|done]. Qed.

Lemma split_space word c rest :
  is_space c = true →
  split word (String c rest)
  = if String.eqb word "" then split "" rest else word :: split "" rest.
Proof. intros Hc. cbn. by rewrite Hc. Qed.

Lemma split_char word c rest :
  is_space c = false →
  split word (String c rest) = split (String.append word (String c "")) rest.
Proof. intros Hc. cbn. by rewrite Hc. Qed.

Lemma append_char word c rest :
  String.append (String.append word (String c "")) rest
  = String.append word (String c rest).
Proof. by rewrite append_assoc. Qed.

Lemma split_words word s :
  all_chars (λ c, negb (is_space c)) word = true →
  Forall (λ w, is_word w = true) (split word s).
Proof.
  revert word. induction s as [|c s IH]; intros word Hword.
  - cbn. destruct (String.eqb_spec word ""); [constructor|].
    repeat constructor. unfold is_word. rewrite Hword, andb_true_r.
    by apply negb_true_iff, String.eqb_neq.
  - destruct (is_space c) eqn:Hc.
    + rewrite split_space by done.
      destruct (String.eqb_spec word ""); [by apply IH|].
      constructor; [|by apply IH].
      unfold is_word. rewrite Hword, andb_true_r.
      by apply negb_true_iff, String.eqb_neq.
    + rewrite split_char by done. apply IH.
      rewrite all_chars_app, Hword. cbn. by rewrite Hc.
Qed.

(** A property of every character of a text, and of the blank, holds for
    every character of its words joined by blanks. *)
Lemma all_chars_join P word s :
  P " "%char = true →
  all_chars P (String.append word s) = true →
  all_chars P (String.concat " " (split word s)) = true.
Proof.
  intros Hblank. revert word. induction s as [|c s IH]; intros word.
  - rewrite append_nil_r. cbn. by destruct (String.eqb word "").
  - destruct (is_space c) eqn:Hc.
    + rewrite split_space, all_chars_app by done. cbn [all_chars].
      intros [Hword [_ Hs]%andb_true_iff]%andb_true_iff.
      destruct (String.eqb word ""); [by apply (IH "")|].
      rewrite concat_cons, all_chars_app, Hword.
      specialize (IH "" Hs).
      destruct (split "" s); [done|].
      rewrite all_chars_app, IH. cbn. by rewrite Hblank.
    + rewrite split_char, <- append_char by done. apply IH.
Qed.

Lemma no_url_join word s :
  no_url (String.append word s) = true →
  no_url (String.concat " " (split word s)) = true.
Proof.
  revert word. induction s as [|c s IH]; intros word.
  - rewrite append_nil_r. cbn. by destruct (String.eqb word "").
  - destruct (is_space c) eqn:Hc.
    + rewrite split_space, no_url_app, no_url_cons by done.
      intros [Hword [_ Hs]%andb_true_iff]%andb_true_iff.
      destruct (String.eqb word ""); [by apply (IH "")|].
      rewrite concat_cons. specialize (IH "" Hs).
      destruct (split "" s) as [|w ws];
        [by rewrite append_nil_r|].
      rewrite no_url_app, Hword by done.
      change (String.append " " ?x) with (String " "%char x).
      by rewrite no_url_cons, url_starts_blank, IH.
    + rewrite split_char, <- append_char by done. apply IH.
Qed.

Lemma split_word acc w rest :
  all_chars (λ c, negb (is_space c)) w = true →
  split acc (String.append w rest) = split (String.append acc w) rest.
Proof.
  revert acc. induction w as [|c w IH]; intros acc Hw.
  - by rewrite append_nil_r.
  - cbn in Hw. apply andb_true_iff in Hw as [Hc Hw].
    apply negb_true_iff in Hc.
    rewrite append_cons, split_char, IH, append_char by done. done.
Qed.

(** Splitting the join of words gives the words back. *)
Lemma split_join ws :
  Forall (λ w, is_word w = true) ws →
  split "" (String.concat " " ws) = ws.
Proof.
  induction 1 as [|w ws Hw _ IH]; [done|].
  unfold is_word in Hw. apply andb_true_iff in Hw as [Hne Hw].
  apply negb_true_iff in Hne.
  rewrite concat_cons, split_word by done.
  change (String.append "" w) with w.
  destruct ws as [|w' ws].
  - cbn. by rewrite Hne.
  - change (String.append " " ?x) with (String " "%char x).
    rewrite split_space by done. by rewrite Hne, IH.
Qed.

(** X11. The text [_preprocess_text] returns is in normal form: it has no
    upper-case letter, the pattern of the URLs matches nowhere in it, and
    it consists of non-empty words without white space, separated by single
    blanks (so it neither starts nor ends with a blank). *)
Theorem preprocessed_text_is_normal (text : string) :
  all_chars (λ c, negb (is_upper c)) (_preprocess_text text) = true
  ∧ no_url (_preprocess_text text) = true
  ∧ ∃ words,
      _preprocess_text text = String.concat " " words
      ∧ Forall (λ w, is_word w = true) words
      ∧ split "" (_preprocess_text text) = words.
Proof.
  unfold _preprocess_text. split; [|split].
  - apply all_chars_join; [done|].
    change (String.append "" ?x) with x.
    apply all_chars_remove, lower_not_upper.
  - apply no_url_join. change (String.append "" ?x) with x.
    apply no_url_remove.
  - exists (split "" (remove_urls false (lower text))).
    split; [done|]. split; [by apply split_words|].
    apply split_join. by apply split_words.
Qed.

Lemma lower_char_ascii c :
  Nat.ltb (nat_of_ascii c) 128 = true →
  Nat.ltb (nat_of_ascii (lower_char c)) 128 = true.
Proof.
  destruct c as [[] [] [] [] [] [] [] []]; intros H; try reflexivity;
    discriminate H.
Qed.

Lemma lower_ascii s : is_ascii s = true → is_ascii (lower s) = true.
Proof.
  unfold is_ascii. induction s as [|c s IH]; [done|]. cbn [all_chars lower].
  intros [Hc Hs]%andb_true_iff. by rewrite lower_char_ascii, IH.
Qed.

Lemma preprocess_ascii text :
  is_ascii text = true → is_ascii (_preprocess_text text) = true.
Proof.
  intros Hascii. unfold _preprocess_text, is_ascii.
  apply all_chars_join; [done|].
  change (String.append "" ?x) with x.
  by apply all_chars_remove, lower_ascii.
Qed.

(** X12. On an ASCII text [_preprocess_text] is idempotent: the cleaned
    text is ASCII again, and cleaning it once more changes nothing. *)
Theorem preprocess_is_idempotent (text : string) :
  is_ascii text = true →
  is_ascii (_preprocess_text text) = true
  ∧ _preprocess_text (_preprocess_text text) = _preprocess_text text.
Proof.
  intros Hascii. split; [by apply preprocess_ascii|].
  set (cleaned := remove_urls false (lower text)).
  assert (all_chars (λ c, negb (is_upper c)) cleaned = true) as Hlow
    by apply all_chars_remove, lower_not_upper.
  assert (no_url cleaned = true) as Hurl by apply no_url_remove.
  unfold _preprocess_text. fold cleaned.
  rewrite lower_fixed by (by apply all_chars_join).
  rewrite no_url_fixed by (by apply no_url_join).
  by rewrite split_join by (by apply split_words).
Qed.

Lemma preprocess_is_idempotent_witness :
  is_ascii "  Great LAPTOP, see https://a.b/c  NOW " = true
  ∧ _preprocess_text "  Great LAPTOP, see https://a.b/c  NOW "
    = "great laptop, see now"
  ∧ _preprocess_text
      (_preprocess_text "  Great LAPTOP, see https://a.b/c  NOW ")
    = _preprocess_text "  Great LAPTOP, see https://a.b/c  NOW ".
Proof.
  split; [reflexivity|]. split; [reflexivity|].
  apply (preprocess_is_idempotent "  Great LAPTOP, see https://a.b/c  NOW ").
  reflexivity.
Defined.

Lemma blank_text s :
  all_chars is_space s = true →
  lower s = s ∧ remove_urls false s = s ∧ split "" s = [].
Proof.
  induction s as [|c s IH]; [done|]. cbn [all_chars].
  intros [Hc Hs]%andb_true_iff. destruct (IH Hs) as (Hl & Hr & Hw).
  split; [|split].
  - cbn. rewrite Hl. f_equal. unfold lower_char.
    destruct c as [[] [] [] [] [] [] [] []]; done.
  - rewrite remove_urls_false, url_starts_blank, Hr; done.
  - by rewrite split_space, Hw.
Qed.

(** X13. A text of white space only is cleaned to the empty string, and it
    is not stopped by the guard of [analyze_sentiment]: the scorer is called
    on the empty string, and its compound score (or 0.0 with a warning when
    it raises) is returned. *)
Theorem blank_text_is_scored_as_empty (polarity_scores : string → res Scores)
    (text : string) (log : list log_record) :
  text ≠ "" → all_chars is_space text = true →
  _preprocess_text text = ""
  ∧ analyze_sentiment polarity_scores (PyStr text) log
    = match polarity_scores "" with
      | Ok scores => (Ok (compound scores), log)
      | Raise e => (Ok (Fin 0), log ++ [Warning "Error analyzing sentiment" e])
      end.
Proof.
  intros Hne Hblank.
  assert (_preprocess_text text = "") as Hclean.
  { destruct (blank_text text Hblank) as (Hl & Hr & Hw).
    unfold _preprocess_text. by rewrite Hl, Hr, Hw. }
  split; [exact Hclean|].
  unfold analyze_sentiment. cbn.
  destruct (String.eqb_spec text ""); [done|]. cbn.
  unfold try_except, mbind, Py_bind, py_bind, mret, Py_ret, py_ret.
  rewrite Hclean. by destruct (polarity_scores "").
Qed.

Lemma blank_text_is_scored_as_empty_witness :
  "   " ≠ "" ∧ all_chars is_space "   " = true
  ∧ _preprocess_text "   " = ""
  ∧ analyze_sentiment mild_scorer (PyStr "   ") []
    = (Ok (Fin 0), [Warning "Error analyzing sentiment" ValueError]).
Proof.
  split; [discriminate|]. split; [reflexivity|].
  apply (blank_text_is_scored_as_empty mild_scorer "   " []);
    [discriminate|reflexivity].
Defined.

(** ** [extract_keywords] *)

Lemma count_entry word freq k n :
  NoDup freq.*1 →
  (k, n) ∈ count word freq →
  (k ≠ word ∧ (k, n) ∈ freq)
  ∨ (k = word ∧ ((∃ m, (word, m) ∈ freq ∧ n = S m)
                 ∨ ((word ∉ freq.*1) ∧ n = 1))).
Proof.
  induction freq as [|[w m] freq IH]; cbn [count fmap list_fmap fst].
  - intros _ [= -> ->]%list_elem_of_singleton. right. split; [done|].
    right. split; [apply not_elem_of_nil|done].
  - intros [Hw Hnd]%NoDup_cons.
    destruct (String.eqb_spec w word) as [->|Hne].
    + intros [[= -> ->]|Hin]%elem_of_cons.
      * right. split; [done|]. left. exists m. split; [left|done].
      * left. split; [|by right].
        intros ->. apply Hw. apply list_elem_of_fmap. by exists (word, n).
    + intros [[= -> ->]|Hin]%elem_of_cons.
      * left. split; [done|left].
      * destruct (IH Hnd Hin) as [[? ?]|[-> [(m' & ? & ->)|[? ->]]]].
        -- left. split; [done|by right].
        -- right. split; [done|]. left. exists m'. split; [by right|done].
        -- right. split; [done|]. right. split; [|done].
           cbn. by intros [?|?]%elem_of_cons.
Qed.

Lemma count_keys word freq :
  (count word freq).*1
  = (if bool_decide (word ∈ freq.*1) then freq.*1 else freq.*1 ++ [word]).
Proof.
  induction freq as [|[w m] freq IH]; [done|]. cbn [count].
  destruct (String.eqb_spec w word) as [->|Hne]; cbn.
  - rewrite bool_decide_eq_true_2; [done|left].
  - rewrite IH. destruct (bool_decide_reflect (word ∈ freq.*1)) as [Hin|Hin].
    + rewrite bool_decide_eq_true_2; [done|by right].
    + rewrite bool_decide_eq_false_2; [done|].
      by intros [?|?]%elem_of_cons.
Qed.

Lemma count_nodup word freq : NoDup freq.*1 → NoDup (count word freq).*1.
Proof.
  intros Hnd. rewrite count_keys. case_bool_decide; [done|].
  apply NoDup_app. split; [done|]. split; [|apply NoDup_singleton].
  by intros k Hk ->%list_elem_of_singleton.
Qed.

Lemma count_key word freq k :
  k ∈ (count word freq).*1 ↔ k = word ∨ k ∈ freq.*1.
Proof.
  rewrite count_keys. case_bool_decide as Hin.
  - split; [by right|]. by intros [->|?].
  - rewrite elem_of_app, list_elem_of_singleton. tauto.
Qed.

Lemma occurrences_snoc k words word :
  occurrences k (words ++ [word])
  = occurrences k words + (if decide (word = k) then 1 else 0).
Proof.
  unfold occurrences. rewrite filter_app, length_app. f_equal.
  rewrite filter_cons. by case_decide.
Qed.

Lemma occurrences_zero k words : k ∉ words → occurrences k words = 0.
Proof.
  unfold occurrences. intros Hk.
  destruct (filter (λ x, x = k) words) as [|x l] eqn:Hf; [done|].
  assert (x ∈ filter (λ x, x = k) words) as Hx by (rewrite Hf; left).
  apply list_elem_of_filter in Hx as [-> ?]. done.
Qed.

(** The counter of a list of words: one entry per distinct word, with its
    number of occurrences. *)
Lemma counter_loop (seen words : list string) freq :
  NoDup freq.*1 →
  (∀ k, k ∈ freq.*1 ↔ k ∈ seen) →
  (∀ k n, (k, n) ∈ freq → n = occurrences k seen) →
  NoDup (foldl (λ freq word, count word freq) freq words).*1
  ∧ (∀ k, k ∈ (foldl (λ freq word, count word freq) freq words).*1
          ↔ k ∈ seen ++ words)
  ∧ (∀ k n, (k, n) ∈ foldl (λ freq word, count word freq) freq words →
            n = occurrences k (seen ++ words)).
Proof.
  revert seen freq. induction words as [|word words IH];
    intros seen freq Hnd Hkeys Hcount.
  - cbn. by rewrite app_nil_r.
  - cbn [foldl].
    replace (seen ++ word :: words) with ((seen ++ [word]) ++ words)
      by by rewrite <- app_assoc.
    apply IH.
    + by apply count_nodup.
    + intros k. rewrite count_key, elem_of_app, list_elem_of_singleton, Hkeys.
      tauto.
    + intros k n Hin. rewrite occurrences_snoc.
      destruct (count_entry _ _ _ _ Hnd Hin)
        as [[Hne Hk]|[-> [(m & Hm & ->)|[Hnew ->]]]].
      * rewrite decide_False by done. rewrite (Hcount _ _ Hk). lia.
      * rewrite decide_True by done. rewrite (Hcount _ _ Hm). lia.
      * rewrite decide_True by done. rewrite occurrences_zero; [done|].
        by rewrite <- Hkeys.
Qed.

Lemma counter_spec words :
  NoDup (Counter words).*1
  ∧ (∀ k, k ∈ (Counter words).*1 ↔ k ∈ words)
  ∧ (∀ k n, (k, n) ∈ Counter words → n = occurrences k words).
Proof.
  apply (counter_loop [] words []).
  - constructor.
  - intros k. cbn. by rewrite !elem_of_nil.
  - by intros k n ?%elem_of_nil.
Qed.

Lemma insert_by_count_perm x sorted : insert_by_count x sorted ≡ₚ x :: sorted.
Proof.
  induction sorted as [|y sorted IH]; [done|]. cbn [insert_by_count].
  destruct (x.2 <? y.2); [|reflexivity]. rewrite IH. apply Permutation_swap.
Qed.

Lemma sort_perm freq : foldr insert_by_count [] freq ≡ₚ freq.
Proof.
  induction freq as [|x freq IH]; [done|]. cbn.
  by rewrite insert_by_count_perm, IH.
Qed.

Lemma insert_by_count_sorted x sorted :
  StronglySorted (λ a b : string * nat, b.2 ≤ a.2) sorted →
  StronglySorted (λ a b : string * nat, b.2 ≤ a.2) (insert_by_count x sorted).
Proof.
  induction 1 as [|y sorted Hs IH Hy]; cbn [insert_by_count].
  - repeat constructor.
  - destruct (Nat.ltb_spec x.2 y.2) as [Hlt|Hge].
    + constructor; [done|]. rewrite insert_by_count_perm.
      constructor; [lia|done].
    + constructor; [by constructor|]. constructor; [done|].
      eapply Forall_impl; [exact Hy|]. cbn. lia.
Qed.

Lemma sort_sorted freq :
  StronglySorted (λ a b : string * nat, b.2 ≤ a.2)
    (foldr insert_by_count [] freq).
Proof.
  induction freq as [|x freq IH]; [constructor|].
  by apply insert_by_count_sorted.
Qed.

Lemma occurrences_filter (P : string → bool) k words :
  P k = true →
  occurrences k (filter (λ w, P w = true) words) = occurrences k words.
Proof.
  intros Hk. unfold occurrences. f_equal.
  induction words as [|w words IH]; [done|].
  rewrite !filter_cons. destruct (decide (w = k)) as [->|Hne].
  - rewrite decide_True by done. rewrite filter_cons, decide_True by done.
    by rewrite IH.
  - case_decide; [|done]. rewrite filter_cons, decide_False by done. done.
Qed.

(** The sorted counter behind [extract_keywords]: one entry for each
    qualifying word of the text, with its number of occurrences, by
    decreasing count. *)
Lemma keywords_structure (stop_words : gset string) (s : string) (top_n : Z)
    (log : list keyword_log) :
  ∃ sorted,
    extract_keywords stop_words (PyStr s) top_n log
    = ((take (Z.to_nat top_n) sorted).*1, log)
    ∧ StronglySorted (λ a b : string * nat, b.2 ≤ a.2) sorted
    ∧ NoDup sorted.*1
    ∧ ∀ k c, (k, c) ∈ sorted
             ↔ k ∈ split "" (lower s) ∧ is_keyword stop_words k = true
               ∧ c = occurrences k (split "" (lower s)).
Proof.
  set (words := split "" (lower s)).
  set (keywords := filter (λ word, is_keyword stop_words word = true) words).
  destruct (counter_spec keywords) as (Hnd & Hkeys & Hcount).
  exists (foldr insert_by_count [] (Counter keywords)).
  split; [done|]. split; [apply sort_sorted|].
  split; [by rewrite sort_perm|].
  intros k c. rewrite sort_perm. split.
  - intros Hin.
    assert (k ∈ keywords) as Hk.
    { apply Hkeys, list_elem_of_fmap. by exists (k, c). }
    apply list_elem_of_filter in Hk as [Hkey Hk].
    split; [done|]. split; [done|].
    rewrite (Hcount _ _ Hin). by apply occurrences_filter.
  - intros (Hk & Hkey & ->).
    assert (k ∈ (Counter keywords).*1) as Hin.
    { apply Hkeys, list_elem_of_filter. done. }
    apply list_elem_of_fmap in Hin as ([k' c] & Heq & Hin).
    cbn in Heq. subst k'.
    replace (occurrences k words) with c; [done|].
    rewrite (Hcount _ _ Hin). by apply occurrences_filter.
Qed.

Lemma is_keyword_spec (stop_words : gset string) word :
  is_keyword stop_words word = true
  ↔ (word ∉ stop_words) ∧ 3 < String.length word ∧ isalpha word = true.
Proof.
  unfold is_keyword. rewrite !andb_true_iff, negb_true_iff,
    bool_decide_eq_false, Nat.ltb_lt. tauto.
Qed.

(** X14. What [extract_keywords] returns for an ASCII string: at most
    [top_n] words, without repetition; each of them is a word of the
    lower-cased text, is not a stop word, has more than three characters
    and consists of letters only; nothing is logged; for a [top_n] that is
    not positive the result is empty.  For a built-in value that is not a
    string ([None], a [bool], an [int], a [float], a [list], a [dict]) the
    result is the empty list, with one warning. *)
Theorem keywords_are_qualifying_words (stop_words : gset string)
    (text : pyval) (top_n : Z) (log : list keyword_log) :
  (is_str text = false →
   extract_keywords stop_words text top_n log
   = ([], log ++ [KeywordWarning text]))
  ∧ (∀ s, text = PyStr s → is_ascii s = true →
       ∃ result,
         extract_keywords stop_words text top_n log = (result, log)
         ∧ NoDup result
         ∧ length result ≤ Z.to_nat top_n
         ∧ ((top_n <= 0)%Z → result = [])
         ∧ ∀ k, k ∈ result →
                k ∈ split "" (lower s)
                ∧ (k ∉ stop_words)
                ∧ 3 < String.length k
                ∧ isalpha k = true).
Proof.
  split; [by destruct text|]. intros s -> _.
  destruct (keywords_structure stop_words s top_n log)
    as (sorted & -> & _ & Hnd & Hin).
  eexists. split; [reflexivity|]. split; [|split; [|split]].
  - apply (sublist_NoDup _ sorted.*1); [exact Hnd|].
    rewrite fmap_take. apply sublist_take.
  - rewrite length_fmap, length_take. lia.
  - intros Hn. by replace (Z.to_nat top_n) with 0 by lia.
  - intros k ([k' c] & -> & Hk)%list_elem_of_fmap.
    apply subseteq_take, Hin in Hk as (Hw & Hkey & _).
    apply is_keyword_spec in Hkey. done.
Qed.

(** The keywords of a review, and of [None]. *)
Lemma keywords_are_qualifying_words_witness :
  is_ascii "Great screen, great battery and a great price" = true
  ∧ (∃ result,
       extract_keywords {["and"]}
         (PyStr "Great screen, great battery and a great price") 2 []
       = (result, [])
       ∧ result = ["great"; "battery"]
       ∧ NoDup result
       ∧ ∀ k, k ∈ result → 3 < String.length k ∧ isalpha k = true)
  ∧ extract_keywords {["and"]} PyNone 2 [] = ([], [KeywordWarning PyNone]).
Proof.
  split; [reflexivity|].
  destruct (keywords_are_qualifying_words {["and"]}
              (PyStr "Great screen, great battery and a great price") 2 [])
    as [_ Hstr].
  destruct (keywords_are_qualifying_words {["and"]} PyNone 2 [])
    as [Hnone _].
  split; [|exact (Hnone eq_refl)].
  destruct (Hstr _ eq_refl eq_refl) as (result & Hrun & Hnd & _ & _ & Hk).
  exists result. split; [exact Hrun|].
  split; [vm_compute in Hrun; by injection Hrun as <-|].
  split; [exact Hnd|].
  intros k Hin. destruct (Hk k Hin) as (_ & _ & Hlen & Halpha). by split.
Defined.

Lemma strongly_sorted_lookup {A} (R : relation A) (l : list A) i j a b :
  StronglySorted R l → i < j → l !! i = Some a → l !! j = Some b → R a b.
Proof.
  intros Hs Hij Ha Hb. rewrite <- (take_drop j l) in Hs.
  eapply StronglySorted_app_1_elem_of; [exact Hs| |].
  - apply list_elem_of_lookup. exists i. by rewrite lookup_take_lt.
  - apply list_elem_of_lookup. exists 0. by rewrite lookup_drop, Nat.add_0_r.
Qed.

(** X15. On an ASCII string [extract_keywords] returns the most frequent
    qualifying words, most frequent first: along the result the numbers of
    occurrences in the lower-cased text never increase; a qualifying word
    that is left out occurs at most as often as every word returned; and
    when fewer than [top_n] words are returned, no qualifying word is left
    out. *)
Theorem keywords_are_the_most_frequent (stop_words : gset string)
    (s : string) (top_n : Z) (log : list keyword_log) :
  is_ascii s = true →
  ∃ result,
    extract_keywords stop_words (PyStr s) top_n log = (result, log)
    ∧ (∀ i j wi wj,
         i ≤ j → result !! i = Some wi → result !! j = Some wj →
         occurrences wj (split "" (lower s))
         ≤ occurrences wi (split "" (lower s)))
    ∧ (∀ k r,
         k ∈ split "" (lower s) → is_keyword stop_words k = true →
         k ∉ result → r ∈ result →
         occurrences k (split "" (lower s))
         ≤ occurrences r (split "" (lower s)))
    ∧ (length result < Z.to_nat top_n →
       ∀ k, k ∈ split "" (lower s) → is_keyword stop_words k = true →
            k ∈ result).
Proof.
  intros _.
  destruct (keywords_structure stop_words s top_n log)
    as (sorted & -> & Hsorted & Hnd & Hin).
  set (n := Z.to_nat top_n).
  eexists. split; [reflexivity|]. split; [|split].
  - intros i j wi wj Hij Hi Hj.
    rewrite list_lookup_fmap in Hi, Hj.
    destruct (take n sorted !! i) as [[wi' ci]|] eqn:Hti; [|done].
    destruct (take n sorted !! j) as [[wj' cj]|] eqn:Htj; [|done].
    injection Hi as ->. injection Hj as ->.
    destruct (decide (i = j)) as [->|Hne].
    { rewrite Hti in Htj. by injection Htj as -> ->. }
    apply lookup_take_Some in Hti as [Hti _], Htj as [Htj _].
    assert (i < j) as Hlt by lia.
    pose proof (strongly_sorted_lookup _ sorted i j (wi, ci) (wj, cj)
                  Hsorted Hlt Hti Htj) as Hle.
    cbn in Hle.
    apply list_elem_of_lookup_2, Hin in Hti as (_ & _ & <-).
    by apply list_elem_of_lookup_2, Hin in Htj as (_ & _ & <-).
  - intros k r Hk Hkey Hout ([r' cr] & -> & Hr)%list_elem_of_fmap.
    assert ((k, occurrences k (split "" (lower s))) ∈ sorted) as Hks
      by by apply Hin.
    rewrite <- (take_drop n sorted) in Hks, Hsorted.
    apply elem_of_app in Hks as [Hks|Hks].
    { destruct Hout. apply list_elem_of_fmap. by eexists (_, _). }
    pose proof (StronglySorted_app_1_elem_of _ _ _ _ _ Hsorted Hr Hks) as Hle.
    apply subseteq_take, Hin in Hr as (_ & _ & ->). exact Hle.
  - rewrite length_fmap, length_take. intros Hlen k Hk Hkey.
    rewrite take_ge by lia.
    apply list_elem_of_fmap. exists (k, occurrences k (split "" (lower s))).
    split; [done|]. by apply Hin.
Qed.

(** A review in which [laptop] occurs three times, [great] twice and
    [fast] and [screen] once: with the stop words [this] and [with] and
    [top_n = 3] the keywords are [laptop], [great] and [fast]. *)
Lemma keywords_are_the_most_frequent_witness :
  is_ascii "This laptop is GREAT great battery, laptop with fast screen laptop"
  = true
  ∧ ∃ result,
      extract_keywords {["this"; "with"]}
        (PyStr "This laptop is GREAT great battery, laptop with fast screen laptop")
        3 []
      = (result, [])
      ∧ result = ["laptop"; "great"; "fast"]
      ∧ ∀ i j wi wj,
          i ≤ j → result !! i = Some wi → result !! j = Some wj →
          occurrences wj
            (split "" (lower "This laptop is GREAT great battery, laptop with fast screen laptop"))
          ≤ occurrences wi
              (split "" (lower "This laptop is GREAT great battery, laptop with fast screen laptop")).
Proof.
  split; [reflexivity|].
  destruct (keywords_are_the_most_frequent {["this"; "with"]}
              "This laptop is GREAT great battery, laptop with fast screen laptop"
              3 [] eq_refl)
    as (result & Hrun & Hsorted & _).
  exists result. split; [exact Hrun|]. split; [|exact Hsorted].
  vm_compute in Hrun. by injection Hrun as <-.
Defined.

(** ** The NLTK resources and [__init__] *)

Lemma fetch_run nltk r s :
  fetch nltk r s
  = (Ok (),
     {| calls := calls s ++ [Download r];
        warnings :=
          warnings s
          ++ option_list (e ← download nltk r;
                          Some (Warning ("Could not download " ++ r) e)) |}).
Proof.
  unfold fetch, try_except, warn, call, modify, mbind, Py_bind, py_bind,
    mret, Py_ret, py_ret, raise.
  destruct (download nltk r); cbn; [done|].
  by rewrite app_nil_r.
Qed.

Lemma ensure_resource_run nltk r s :
  ensure_resource nltk r () s
  = match lookup_breaks nltk r with
    | Some e =>
        (Raise e,
         {| calls := calls s ++ [Find (resource_path r)];
            warnings := warnings s |})
    | None =>
        (Ok (),
         {| calls := calls s ++ calls_for nltk r;
            warnings := warnings s ++ option_list (warning_for nltk r) |})
    end.
Proof.
  unfold ensure_resource, lookup_breaks, calls_for, warning_for, is_missing.
  unfold mbind, Py_bind, py_bind, call, modify. cbn.
  destruct (data_find nltk (resource_path r)) as [| |e];
    [|rewrite fetch_run|destruct (is_lookup_error e); [rewrite fetch_run|]];
    cbn; rewrite <- ?app_assoc, ?app_nil_r; reflexivity.
Qed.

Lemma resource_loop nltk rs s :
  (∀ r, r ∈ rs → lookup_breaks nltk r = None) →
  for_in rs (ensure_resource nltk) () s
  = (Ok (),
     {| calls := calls s ++ flat_map (calls_for nltk) rs;
        warnings := warnings s ++ omap (warning_for nltk) rs |}).
Proof.
  revert s. induction rs as [|r rs IH]; intros s Hok.
  { cbn. unfold py_ret. rewrite !app_nil_r. by destruct s. }
  cbn [for_in]. unfold py_bind. rewrite ensure_resource_run.
  rewrite Hok by apply list_elem_of_here. cbv beta iota.
  rewrite IH; [|intros r0 Hr0; apply Hok, list_elem_of_further, Hr0].
  cbn [calls warnings flat_map omap list_omap]. rewrite <- !app_assoc.
  by destruct (warning_for nltk r).
Qed.

Lemma resource_loop_breaks nltk pre r post e s :
  (∀ r', r' ∈ pre → lookup_breaks nltk r' = None) →
  lookup_breaks nltk r = Some e →
  for_in (pre ++ r :: post) (ensure_resource nltk) () s
  = (Raise e,
     {| calls := calls s ++ flat_map (calls_for nltk) pre
                 ++ [Find (resource_path r)];
        warnings := warnings s ++ omap (warning_for nltk) pre |}).
Proof.
  revert s. induction pre as [|r' pre IH]; intros s Hok Hbreak.
  { cbn [app for_in flat_map omap]. unfold py_bind.
    rewrite ensure_resource_run, Hbreak. by rewrite app_nil_r. }
  cbn [app for_in]. unfold py_bind. rewrite ensure_resource_run.
  rewrite Hok by apply list_elem_of_here. cbv beta iota.
  rewrite IH;
    [|intros r0 Hr0; apply Hok, list_elem_of_further, Hr0|exact Hbreak].
  cbn [calls warnings flat_map omap list_omap]. rewrite <- !app_assoc.
  by destruct (warning_for nltk r').
Qed.

(** X16. [_download_nltk_resources] when no lookup raises anything but a
    [LookupError]: it returns; it looks up the lexicon, the stop words and
    the tokenizer, in this order, each under its own directory; it
    downloads exactly the resources whose lookup failed, each right after
    its lookup; and it logs exactly one warning for each download that
    raised, the later resources being handled all the same. *)
Theorem missing_resources_are_downloaded (nltk : Nltk) (s : InitSt) :
  (∀ r, r ∈ resources → lookup_breaks nltk r = None) →
  _download_nltk_resources nltk s
  = (Ok (),
     {| calls := calls s ++ flat_map (calls_for nltk) resources;
        warnings := warnings s ++ omap (warning_for nltk) resources |})
  ∧ (∀ path, Find path ∈ flat_map (calls_for nltk) resources
             ↔ path ∈ ["sentiment/vader_lexicon"; "corpora/stopwords";
                       "tokenizers/punkt"])
  ∧ (∀ r, Download r ∈ flat_map (calls_for nltk) resources
          ↔ r ∈ resources ∧ is_missing nltk r = true)
  ∧ (∀ record, record ∈ omap (warning_for nltk) resources
               ↔ ∃ r e, r ∈ resources ∧ is_missing nltk r = true
                        ∧ download nltk r = Some e
                        ∧ record = Warning ("Could not download " ++ r) e).
Proof.
  intros Hok. split; [by apply resource_loop|].
  split; [|split].
  - intros path. rewrite list_elem_of_In, in_flat_map.
    setoid_rewrite <- list_elem_of_In. unfold calls_for. split.
    + intros (r & Hr & Hin). apply elem_of_cons in Hin as [Heq|Hin].
      * injection Heq as ->. unfold resources in Hr.
        rewrite !elem_of_cons in Hr. rewrite !elem_of_cons.
        destruct Hr as [->|[->|[->|Hr]]]; [auto..|].
        by apply elem_of_nil in Hr.
      * destruct (is_missing nltk r); [|by apply elem_of_nil in Hin].
        by apply list_elem_of_singleton in Hin.
    + rewrite !elem_of_cons. intros [->|[->|[->|Hpath]]];
        [exists "vader_lexicon"|exists "stopwords"|exists "punkt"|
         by apply elem_of_nil in Hpath];
        (split; [unfold resources; rewrite !elem_of_cons; auto|by left]).
  - intros r. rewrite list_elem_of_In, in_flat_map.
    setoid_rewrite <- list_elem_of_In. unfold calls_for. split.
    + intros (r' & Hr & Hin). apply elem_of_cons in Hin as [Heq|Hin];
        [done|].
      destruct (is_missing nltk r') eqn:Hmiss;
        [|by apply elem_of_nil in Hin].
      apply list_elem_of_singleton in Hin. by injection Hin as ->.
    + intros [Hr Hmiss]. exists r. split; [done|]. rewrite Hmiss.
      right. by left.
  - intros record. rewrite list_elem_of_omap. unfold warning_for. split.
    + intros (r & Hr & Hw). exists r.
      destruct (is_missing nltk r); [|done].
      destruct (download nltk r) as [e|]; [|done].
      exists e. cbn in Hw. by injection Hw as <-.
    + intros (r & e & Hr & Hmiss & Hdown & ->). exists r.
      by rewrite Hmiss, Hdown.
Qed.

Lemma missing_resources_are_downloaded_witness :
  (∀ r, r ∈ resources → lookup_breaks offline_install r = None)
  ∧ _download_nltk_resources offline_install
      {| calls := []; warnings := [] |}
    = (Ok (),
       {| calls := [Find "sentiment/vader_lexicon";
                    Find "corpora/stopwords"; Download "stopwords";
                    Find "tokenizers/punkt"; Download "punkt"];
          warnings := [Warning "Could not download stopwords" ValueError] |}).
Proof.
  assert (∀ r, r ∈ resources → lookup_breaks offline_install r = None) as Hok.
  { intros r Hr. unfold resources in Hr. set_unfold.
    destruct Hr as [->|[->|[->|[]]]]; reflexivity. }
  split; [exact Hok|].
  exact (proj1 (missing_resources_are_downloaded offline_install
                  {| calls := []; warnings := [] |} Hok)).
Defined.

(** X17. A lookup that raises anything but a [LookupError] is not
    contained: [_download_nltk_resources] raises that exception right after
    the lookup, the resources that follow are neither looked up nor
    downloaded, and [__init__] raises it too, so no analyzer is built. *)
Theorem other_lookup_errors_leave_the_loop (nltk : Nltk)
    (pre : list string) (r : string) (post : list string) (e : exn)
    (s : InitSt) :
  resources = pre ++ r :: post →
  (∀ r', r' ∈ pre → lookup_breaks nltk r' = None) →
  lookup_breaks nltk r = Some e →
  _download_nltk_resources nltk s
  = (Raise e,
     {| calls := calls s ++ flat_map (calls_for nltk) pre
                 ++ [Find (resource_path r)];
        warnings := warnings s ++ omap (warning_for nltk) pre |})
  ∧ __init__ nltk s
    = (Raise e, final (_download_nltk_resources nltk s)).
Proof.
  intros Hres Hok Hbreak.
  assert (_download_nltk_resources nltk s
          = (Raise e,
             {| calls := calls s ++ flat_map (calls_for nltk) pre
                         ++ [Find (resource_path r)];
                warnings := warnings s ++ omap (warning_for nltk) pre |}))
    as Hrun.
  { unfold _download_nltk_resources. rewrite Hres.
    by apply resource_loop_breaks. }
  split; [exact Hrun|].
  unfold __init__, mbind, Py_bind, py_bind. by rewrite Hrun.
Qed.

Lemma other_lookup_errors_leave_the_loop_witness :
  resources = ["vader_lexicon"] ++ "stopwords" :: ["punkt"]
  ∧ (∀ r', r' ∈ ["vader_lexicon"] → lookup_breaks broken_install r' = None)
  ∧ lookup_breaks broken_install "stopwords" = Some ValueError
  ∧ _download_nltk_resources broken_install
      {| calls := []; warnings := [] |}
    = (Raise ValueError,
       {| calls := [Find "sentiment/vader_lexicon"; Download "vader_lexicon";
                    Find "corpora/stopwords"];
          warnings := [] |}).
Proof.
  assert (∀ r', r' ∈ ["vader_lexicon"] → lookup_breaks broken_install r' = None)
    as Hok.
  { intros r' Hr'. apply list_elem_of_singleton in Hr' as ->. reflexivity. }
  split; [reflexivity|]. split; [exact Hok|]. split; [reflexivity|].
  exact (proj1 (other_lookup_errors_leave_the_loop broken_install
                  ["vader_lexicon"] "stopwords" ["punkt"] ValueError
                  {| calls := []; warnings := [] |}
                  eq_refl Hok eq_refl)).
Defined.

(** X18. [__init__] once the resources are handled: it touches NLTK's
    resources no further and logs nothing more; a failure of
    [SentimentIntensityAnalyzer()] is raised to the caller; otherwise the
    analyzer is built, with the English stop words as a set, and with the
    empty set when the stop words cannot be read, in which case
    [extract_keywords] filters words by length and letters only. *)
Theorem stop_word_failure_is_swallowed (nltk : Nltk) (s : InitSt) :
  (∀ r, r ∈ resources → lookup_breaks nltk r = None) →
  final (__init__ nltk s) = final (_download_nltk_resources nltk s)
  ∧ (∀ e, sia_loads nltk = Some e → result (__init__ nltk s) = Raise e)
  ∧ (sia_loads nltk = None →
     ∃ stop_words,
       result (__init__ nltk s) = Ok stop_words
       ∧ (∀ words, stopwords_english nltk = Ok words →
                   ∀ word, word ∈ stop_words ↔ word ∈ words)
       ∧ (∀ e, stopwords_english nltk = Raise e →
               stop_words = ∅
               ∧ ∀ word, is_keyword stop_words word
                         = Nat.ltb 3 (String.length word) && isalpha word)).
Proof.
  intros Hok.
  pose proof (resource_loop nltk resources s Hok) as Hrun.
  unfold __init__, mbind, Py_bind, py_bind.
  fold (_download_nltk_resources nltk) in Hrun. rewrite Hrun.
  destruct (sia_loads nltk) as [e|] eqn:Hsia.
  { split; [done|]. split; [|done]. by intros e' [= <-]. }
  unfold try_except.
  destruct (stopwords_english nltk) as [words|e] eqn:Hstop.
  - split; [done|]. split; [done|]. intros _.
    exists (list_to_set words). split; [done|]. split; [|done].
    intros words' [= <-] word. apply elem_of_list_to_set.
  - split; [done|]. split; [done|]. intros _.
    exists ∅. split; [done|]. split; [done|].
    intros _ _. split; [done|]. intros word. unfold is_keyword.
    by rewrite bool_decide_eq_false_2 by apply not_elem_of_empty.
Qed.

Lemma stop_word_failure_is_swallowed_witness :
  (∀ r, r ∈ resources → lookup_breaks offline_install r = None)
  ∧ result (__init__ offline_install {| calls := []; warnings := [] |})
    = Ok ∅.
Proof.
  assert (∀ r, r ∈ resources → lookup_breaks offline_install r = None) as Hok.
  { intros r Hr. unfold resources in Hr. rewrite !elem_of_cons in Hr.
    destruct Hr as [->|[->|[->|Hr]]]; [reflexivity..|].
    by apply elem_of_nil in Hr. }
  split; [exact Hok|].
  destruct (stop_word_failure_is_swallowed offline_install
              {| calls := []; warnings := [] |} Hok)
    as (_ & _ & Hbuilt).
  destruct (Hbuilt eq_refl) as (stop_words & Hres & _ & Hempty).
  destruct (Hempty _ eq_refl) as [-> _]. exact Hres.
Defined.
